(** * Netflix Titles Assistant: the SQL-safety and tool-dispatch core

    A shallow embedding of [streamlit_app.py] (and of the rewriting step of
    [responsesAI.py]): the query rewriter [_normalise_query], the bounded
    executor [execute_query], the ticket store [create_support_ticket] and
    the two-round dispatcher [run_agent].

    Python strings are lists of characters.  A character is an [ascii],
    read as a code point in U+0000..U+00FF, so that [str.strip] and
    [str.lower] are the exact Python functions on that range. *)

From Stdlib Require Import String Ascii List Arith Lia Bool ZArith.
From Stdlib Require Import DecimalString DecimalZ.
From Equations Require Import Equations.
Import ListNotations.

(** ** Python strings *)

Module PyStr.

Definition str := list ascii.

Definition lit (s : string) : str := list_ascii_of_string s.

(** [c.isspace()] for a code point below 256: TAB..CR, FS..US, SPACE,
    NEL (U+0085) and NBSP (U+00A0). *)
Definition isspace (c : ascii) : bool :=
  let n := nat_of_ascii c in
  ((9 <=? n) && (n <=? 13)) || ((28 <=? n) && (n <=? 32))
  || (n =? 133) || (n =? 160).

(** [c.lower()] for a code point below 256: A..Z and the Latin-1 capitals
    U+00C0..U+00DE (without the multiplication sign U+00D7) move up by 32. *)
Definition lower_char (c : ascii) : ascii :=
  let n := nat_of_ascii c in
  if ((65 <=? n) && (n <=? 90))
     || ((192 <=? n) && (n <=? 222) && negb (n =? 215))
  then ascii_of_nat (n + 32) else c.

Definition lower (s : str) : str := map lower_char s.

Fixpoint lstrip (s : str) : str :=
  match s with
  | [] => []
  | c :: s' => if isspace c then lstrip s' else s
  end.

Fixpoint rstrip (s : str) : str :=
  match s with
  | [] => []
  | c :: s' =>
      match rstrip s' with
      | [] => if isspace c then [] else [c]
      | r => c :: r
      end
  end.

(** [s.strip()] *)
Definition strip (s : str) : str := rstrip (lstrip s).

(** [s.startswith(p)] *)
Fixpoint startswith (s p : str) : bool :=
  match p, s with
  | [], _ => true
  | _ :: _, [] => false
  | a :: p', c :: s' => Ascii.eqb a c && startswith s' p'
  end.

(** [s.count(c)] for a pattern of one character. *)
Fixpoint count (s : str) (c : ascii) : nat :=
  match s with
  | [] => 0
  | x :: s' => (if Ascii.eqb x c then 1 else 0) + count s' c
  end.

(** [old in s] *)
Fixpoint contains (s old : str) : bool :=
  startswith s old ||
  match s with
  | [] => false
  | _ :: s' => contains s' old
  end.

(** The scan of [s.replace(old, new)] for a non-empty [old]: left to
    right, and after a match it resumes behind the matched text. *)
Equations? replace_scan (s old new : str) : str by wf (length s) lt :=
  replace_scan [] old new := [];
  replace_scan (c :: s') old new with startswith (c :: s') old => {
    | true := new ++ replace_scan (skipn (Nat.pred (length old)) s') old new;
    | false := c :: replace_scan s' old new }.
Proof.
  rewrite length_skipn. simpl. lia.
Qed.

(** [s.replace(old, new)]; with an empty [old], Python puts [new] before
    every character and at the end. *)
Definition replace (s old new : str) : str :=
  match old with
  | [] => new ++ flat_map (fun c => c :: new) s
  | _ :: _ => replace_scan s old new
  end.

End PyStr.

Import PyStr.

(** ** Exceptions and results *)

Inductive exn : Type :=
| ValueError (msg : str)
| KeyError (msg : str)
| TypeError (msg : str)
| AttributeError (msg : str)
| JSONDecodeError (msg : str)
| DatabaseError (msg : str)
| HTTPError (response_text msg : str)
| RequestException (msg : str).

Inductive res (A : Type) : Type :=
| Ok (a : A)
| Raise (e : exn).
Arguments Ok {A} a.
Arguments Raise {A} e.

(** ** The query rewriter *)

Definition MAX_ROWS : nat := 200.

Definition dq : ascii := "034"%char.

Definition raw_directors : str := lit "json_each(directors)".
Definition raw_ifnull_directors : str := lit "json_each(IFNULL(directors, ''))".

(** The SQL expression bound to [replacement] in the source; [dq] stands
    for the double-quote character of the Python literal. *)
Definition replacement : str :=
  lit "'[" ++ [dq] ++ lit "' || REPLACE(REPLACE(IFNULL(directors, ''), '"
  ++ [dq] ++ lit "', ''), ',', '" ++ [dq] ++ lit "," ++ [dq]
  ++ lit "') || '" ++ [dq] ++ lit "]'".

Definition safe_expansion : str := lit "json_each(" ++ replacement ++ lit ")".

Definition semicolon : ascii := ";"%char.

Definition _normalise_query (sql : str) : res str :=
  match sql with
  | [] => Raise (ValueError (lit "Empty SQL query."))
  | _ :: _ =>
      let stripped := strip sql in
      let lowered := lower stripped in
      if negb (startswith lowered (lit "select") || startswith lowered (lit "with"))
      then Raise (ValueError
             (lit "Only SELECT statements (optionally starting with WITH) are allowed."))
      else
        let safe_sql := replace stripped raw_directors safe_expansion in
        let safe_sql := replace safe_sql raw_ifnull_directors safe_expansion in
        if 1 <? count (strip safe_sql) semicolon
        then Raise (ValueError (lit "Multiple statements are not allowed."))
        else Ok safe_sql
  end.

(** ** Values, rows and the dataset engine *)

(** A value of a result row. *)
Inductive sqlval : Type :=
| SqlNull
| SqlInt (z : Z)
| SqlText (s : str)
| SqlBlob (b : list ascii).

(** A result row is a Python tuple. *)
Definition row := list sqlval.

(** A [sqlite3] cursor after [execute]: the column descriptions, the rows
    still to be fetched, and the error the engine raises once they are
    consumed, if the statement fails while stepping. *)
Record cursor : Type := {
  description : option (list str);
  pending : list row;
  failure : option exn
}.

(** [cursor.fetchmany(n)] *)
Definition fetchmany (cur : cursor) (n : nat) : res (list row * cursor) :=
  if n <=? length (pending cur)
  then Ok (firstn n (pending cur),
           {| description := description cur;
              pending := skipn n (pending cur);
              failure := failure cur |})
  else match failure cur with
       | Some e => Raise e
       | None => Ok (pending cur,
                     {| description := description cur;
                        pending := [];
                        failure := None |})
       end.

(** [cursor.fetchone()] *)
Definition fetchone (cur : cursor) : res (option row * cursor) :=
  match pending cur with
  | r :: rest => Ok (Some r, {| description := description cur;
                                pending := rest;
                                failure := failure cur |})
  | [] => match failure cur with
          | Some e => Raise e
          | None => Ok (None, cur)
          end
  end.

(** Truth value of what [fetchone] returns: [None] and the empty tuple
    are false. *)
Definition row_truthy (r : option row) : bool :=
  match r with
  | Some (_ :: _) => true
  | _ => false
  end.

(** ** JSON values handed over by the model *)

(** A JSON value is a string or something else; of a value that is not a
    string the model keeps its truth value and its [str()] text. *)
Inductive jval : Type :=
| JString (s : str)
| JNonString (truthy : bool) (rendered : str).

(** What [json.loads] returns: a dict (keys unique, first binding wins in
    the association list) or a value of another type. *)
Inductive parsed : Type :=
| JObject (fields : list (str * jval))
| JNonObject (v : jval).

(** [a == b] *)
Fixpoint str_eqb (a b : str) : bool :=
  match a, b with
  | [], [] => true
  | x :: a', y :: b' => Ascii.eqb x y && str_eqb a' b'
  | _, _ => false
  end.

Fixpoint dict_lookup (fields : list (str * jval)) (key : str) : option jval :=
  match fields with
  | [] => None
  | (k, v) :: rest => if str_eqb k key then Some v else dict_lookup rest key
  end.

(** [format(v)] inside an f-string *)
Definition py_format (v : jval) : str :=
  match v with
  | JString s => s
  | JNonString _ rendered => rendered
  end.

(** ** Time *)

(** A naive [datetime], as [datetime.utcnow()] returns it. *)
Record datetime : Type := {
  year : Z; month : Z; day : Z;
  hour : Z; minute : Z; second : Z; microsecond : Z
}.

Definition str_of_Z (z : Z) : str := lit (NilEmpty.string_of_int (Z.to_int z)).
Definition str_of_nat (n : nat) : str := str_of_Z (Z.of_nat n).

(** [format(n, '0wd')] for a number that is not negative *)
Definition zero_padded (w : nat) (n : Z) : str :=
  let digits := str_of_Z n in
  repeat "0"%char (w - length digits) ++ digits.

(** [d.isoformat()]: the fraction is printed only when it is not zero. *)
Definition isoformat (d : datetime) : str :=
  zero_padded 4 (year d) ++ lit "-" ++ zero_padded 2 (month d) ++ lit "-"
  ++ zero_padded 2 (day d) ++ lit "T" ++ zero_padded 2 (hour d) ++ lit ":"
  ++ zero_padded 2 (minute d) ++ lit ":" ++ zero_padded 2 (second d)
  ++ (if (microsecond d =? 0)%Z then []
      else lit "." ++ zero_padded 6 (microsecond d)).

Definition is_leap (y : Z) : bool :=
  (((y mod 4 =? 0) && negb (y mod 100 =? 0)) || (y mod 400 =? 0))%Z.

Definition days_before_year (y : Z) : Z :=
  let p := (y - 1)%Z in (p * 365 + p / 4 - p / 100 + p / 400)%Z.

Definition days_in_month (y : Z) (m : nat) : Z :=
  match m with
  | 2 => if is_leap y then 29%Z else 28%Z
  | 4 | 6 | 9 | 11 => 30%Z
  | _ => 31%Z
  end.

Definition days_before_month (y m : Z) : Z :=
  fold_right Z.add 0%Z (map (days_in_month y) (seq 1 (Z.to_nat m - 1))).

(** [d.toordinal()] *)
Definition toordinal (d : datetime) : Z :=
  (days_before_year (year d) + days_before_month (year d) (month d) + day d)%Z.

(** Double-precision arithmetic, as far as [timestamp] needs it.  A finite
    double is kept as a pair [(m, e)] that stands for [m * 2^e]; results are
    rounded to the nearest double, ties to even.  Overflow is left out: no
    number here comes near [2^1024]. *)
Module Binary64.

(** The integer nearest to [a / b], ties to the even one, for [0 < b]. *)
Definition rne_div (a b : Z) : Z :=
  let q := (a / b)%Z in
  let r := (a mod b)%Z in
  if (2 * r <? b)%Z then q
  else if (b <? 2 * r)%Z then (q + 1)%Z
  else if Z.even q then q else (q + 1)%Z.

(** The integer part of the binary logarithm of [n / d], for [0 < n] and
    [0 < d]. *)
Definition floor_log2 (n d : Z) : Z :=
  let k := (Z.log2 n - Z.log2 d)%Z in
  if (if (0 <=? k)%Z then (d * 2 ^ k <=? n)%Z else (d <=? n * 2 ^ (- k))%Z)
  then k else (k - 1)%Z.

(** The double nearest to [n / d], for [0 < d]: 53 bits of mantissa, and
    the least exponent [-1074]. *)
Definition round (n d : Z) : Z * Z :=
  if (n =? 0)%Z then (0, 0)%Z
  else
    let e := Z.max (floor_log2 (Z.abs n) d - 52) (-1074) in
    let m := if (0 <=? e)%Z then rne_div (Z.abs n) (d * 2 ^ e)
             else rne_div (Z.abs n * 2 ^ (- e)) d in
    (Z.sgn n * m, e)%Z.

(** [a / b] of two integers that are doubles themselves. *)
Definition div (a b : Z) : Z * Z := round a b.

(** [s + f] for an integer [s] that is a double itself. *)
Definition add (s : Z) (f : Z * Z) : Z * Z :=
  let (m, e) := f in
  if (0 <=? e)%Z then round (s + m * 2 ^ e) 1
  else round (s * 2 ^ (- e) + m) (2 ^ (- e)).

(** [int(f)]: towards zero. *)
Definition trunc (f : Z * Z) : Z :=
  let (m, e) := f in
  if (0 <=? e)%Z then (m * 2 ^ e)%Z else Z.quot m (2 ^ (- e)).

End Binary64.

(** [(d - epoch) // timedelta(seconds=1)]: the whole seconds from
    1970-01-01 00:00:00 to the naive datetime [d]. *)
Definition wall_seconds (d : datetime) : Z :=
  ((toordinal d - 719163) * 86400
   + hour d * 3600 + minute d * 60 + second d)%Z.

(** The local zone of the process is a function that gives, for the
    instant of [u] seconds after the epoch, the seconds that local time is
    ahead of UTC.  [local zone u] is the naive local time at [u], in whole
    seconds. *)
Definition local (zone : Z -> Z) (u : Z) : Z := (u + zone u)%Z.

(** [d._mktime()] for [fold = 0]: the instant at which local time reads
    [d]; the library's search through the two offsets around [d]. *)
Definition _mktime (zone : Z -> Z) (d : datetime) : Z :=
  let t := wall_seconds d in
  let a := (local zone t - t)%Z in
  let u1 := (t - a)%Z in
  let t1 := local zone u1 in
  let same_offset_a_day_before :=
    (t1 =? t)%Z && (a =? local zone (u1 - 86400) - (u1 - 86400))%Z in
  if same_offset_a_day_before then u1
  else
    let b := if (t1 =? t)%Z then (local zone (u1 - 86400) - (u1 - 86400))%Z
             else (t1 - u1)%Z in
    let u2 := (t - b)%Z in
    let t2 := local zone u2 in
    if (t2 =? t)%Z then u2
    else if (t1 =? t)%Z then u1
    else Z.max u1 u2.

(** [d.timestamp()] of a naive datetime: a double. *)
Definition timestamp (zone : Z -> Z) (d : datetime) : Z * Z :=
  Binary64.add (_mktime zone d) (Binary64.div (microsecond d) 1000000).

(** [int(d.timestamp())] *)
Definition int_timestamp (zone : Z -> Z) (d : datetime) : Z :=
  Binary64.trunc (timestamp zone d).

(** ** The model provider *)

Inductive field : Type :=
| Absent
| Null
| Text (s : str).

Record function_call : Type := {
  fc_name : option str;
  fc_arguments : option str
}.

Record assistant_message : Type := {
  msg_content : field;
  msg_function_call : option function_call
}.

(** [response[choices][0]] of a completion of the expected shape: a list
    [choices] whose first entry holds a [message], in which [function_call]
    is absent or an object.  A body of another shape, on which [run_agent]
    raises where it reads these keys, has no value here. *)
Record choice : Type := {
  finish_reason : option str;
  message : assistant_message
}.

Inductive chat_message : Type :=
| SystemMessage (content : str)
| UserMessage (content : str)
| AssistantMessage (m : assistant_message)
| FunctionMessage (name content : str).

(** ** Tickets and results *)

Record ticket : Type := {
  ticket_id : str;
  title : jval;
  priority : jval;
  created_at : str
}.

Inductive pyval : Type :=
| PNone
| PStr (s : str)
| PColumns (cols : list str)
| PRows (rows : list row)
| PTicket (t : ticket).

(** The dict [run_agent] returns, keys in the order of the literal. *)
Definition result := list (string * pyval).

(** [result.get(key)], as the page reads the dict. *)
Fixpoint get (d : result) (key : string) : option pyval :=
  match d with
  | [] => None
  | (k, v) :: rest => if String.eqb k key then Some v else get rest key
  end.

(** ** The process and its surroundings *)

Inductive level : Type := INFO | WARNING.

(** What the process can change: the log, the ticket file (absent, or its
    text) and the number of clock readings taken so far. *)
Record world : Type := {
  log : list (level * str);
  ticket_file : option str;
  ticks : nat
}.

(** What the process only reads or calls. *)
Record env : Type := {
  OPENAI_API_KEY : option str;
  provider : list chat_message -> option (list str) -> res choice;
  connect : res unit;
  database : str -> res cursor;
  json_loads : str -> res parsed;
  json_dumps_rows : list str -> list row -> res str;
  json_dumps_ticket : ticket -> str;
  clock : nat -> datetime;
  utcoffset : Z -> Z
}.

(** [clock e k] is what the [k]-th call of [datetime.utcnow()] returns;
    [utcoffset e] is the local zone of the process, see [local]. *)

(** A computation changes the world and returns or raises. *)
Definition M (A : Type) : Type := world -> res A * world.

Definition ret {A} (a : A) : M A := fun w => (Ok a, w).
Definition raise {A} (e : exn) : M A := fun w => (Raise e, w).
Definition lift {A} (r : res A) : M A := fun w => (r, w).

Definition bind {A B} (m : M A) (k : A -> M B) : M B :=
  fun w => match m w with
           | (Ok a, w') => k a w'
           | (Raise e, w') => (Raise e, w')
           end.

(** [try: m  except Exception as err: h err] *)
Definition try {A} (m : M A) (h : exn -> M A) : M A :=
  fun w => match m w with
           | (Ok a, w') => (Ok a, w')
           | (Raise e, w') => h e w'
           end.

Declare Scope py_scope.
Delimit Scope py_scope with py.
Notation "x <- m ;; k" := (bind m (fun x => k))
  (at level 61, m at next level, right associativity) : py_scope.
Notation "m ;; k" := (bind m (fun _ => k))
  (at level 61, right associativity) : py_scope.
Open Scope py_scope.

Definition logger (lv : level) (msg : str) : M unit :=
  fun w => (Ok tt, {| log := log w ++ [(lv, msg)];
                      ticket_file := ticket_file w;
                      ticks := ticks w |}).

Definition utcnow (e : env) : M datetime :=
  fun w => (Ok (clock e (ticks w)),
            {| log := log w; ticket_file := ticket_file w; ticks := S (ticks w) |}).

(** [str(err)] *)
Definition exn_text (e : exn) : str :=
  match e with
  | ValueError m | KeyError m | TypeError m | AttributeError m
  | JSONDecodeError m | DatabaseError m | RequestException m => m
  | HTTPError _ m => m
  end.

(** ** The bounded executor *)

Definition execute_query (e : env) (sql : str) : M (list str * list row) :=
  safe_sql <- lift (_normalise_query sql) ;;
  lift (connect e) ;;
  logger INFO (lit "Executing SQL: " ++ safe_sql) ;;
  cur <- lift (database e safe_sql) ;;
  let columns := match description cur with
                 | Some (d :: ds) => d :: ds
                 | _ => []
                 end in
  fetched <- lift (fetchmany cur MAX_ROWS) ;;
  let rows := fst fetched in
  next <- lift (fetchone (snd fetched)) ;;
  if row_truthy (fst next)
  then
    logger WARNING (lit "Result truncated to first " ++ str_of_nat MAX_ROWS
                    ++ lit " rows to protect data.") ;;
    ret (columns, firstn MAX_ROWS rows)
  else ret (columns, rows).

(** ** The ticket store *)

Definition nl : ascii := "010"%char.

Definition ticket_header : str :=
  lit "ticket_id,title,description,priority,created_at" ++ [nl].

Definition _ensure_ticket_store : M unit :=
  fun w => (Ok tt,
            match ticket_file w with
            | Some _ => w
            | None => {| log := log w;
                         ticket_file := Some ticket_header;
                         ticks := ticks w |}
            end).

(** [handle.write(line)] on the file opened for appending. *)
Definition append_ticket_line (line : str) : M unit :=
  fun w => (Ok tt,
            {| log := log w;
               ticket_file := Some (match ticket_file w with
                                    | Some text => text
                                    | None => []
                                    end ++ line);
               ticks := ticks w |}).

(** [v.replace(chr(10), ' ').replace(',', ' ')]; only a string has the
    method. *)
Definition sanitize (v : jval) : res str :=
  match v with
  | JString s => Ok (replace (replace s [nl] (lit " ")) (lit ",") (lit " "))
  | JNonString _ _ => Raise (AttributeError (lit "object has no attribute 'replace'"))
  end.

Definition ticket_line (id sanitized_title sanitized_description : str)
    (priority : jval) (timestamp : str) : str :=
  id ++ lit "," ++ sanitized_title ++ lit "," ++ sanitized_description
  ++ lit "," ++ py_format priority ++ lit "," ++ timestamp ++ [nl].

Definition create_support_ticket (e : env) (title description priority : jval)
  : M ticket :=
  _ensure_ticket_store ;;
  now1 <- utcnow e ;;
  let timestamp := isoformat now1 in
  now2 <- utcnow e ;;
  let id := lit "T-" ++ str_of_Z (int_timestamp (utcoffset e) now2) in
  sanitized_title <- lift (sanitize title) ;;
  sanitized_description <- lift (sanitize description) ;;
  let line := ticket_line id sanitized_title sanitized_description priority timestamp in
  append_ticket_line line ;;
  logger INFO (lit "Created support ticket " ++ id ++ lit " with priority "
               ++ py_format priority) ;;
  ret {| ticket_id := id; title := title; priority := priority;
         created_at := timestamp |}.

(** ** The dispatcher *)

Definition lines (ls : list str) : str :=
  match ls with
  | [] => []
  | l :: rest => l ++ flat_map (fun x => nl :: x) rest
  end.

Definition SYSTEM_PROMPT : str := lines [
  lit "You are DatabaseGPT, a helpful assistant that answers questions using the netflix_titles SQLite database.";
  lit "Rules:";
  lit "- Generate safe, single-statement, read-only SQL (SELECT ... or WITH ... SELECT) referencing only the netflix_titles table and its listed columns.";
  lit "- Treat directors as a comma-separated list; when counting or grouping by director, expand the list using a CTE with json_each and TRIM, converting the string into valid JSON, for example:";
  lit "  WITH director_cte AS (";
  lit "      SELECT";
  lit "          TRIM(value) AS director";
  lit "      FROM netflix_titles,";
  lit "           json_each(";
  lit "               '[" ++ [dq] ++ lit "'";
  lit "               || REPLACE(REPLACE(IFNULL(directors, ''), '" ++ [dq]
    ++ lit "', ''), ',', '" ++ [dq] ++ lit "," ++ [dq] ++ lit "')";
  lit "               || '" ++ [dq] ++ lit "]'";
  lit "           )";
  lit "      WHERE director <> ''";
  lit "  )";
  lit "- Apply sensible LIMIT values (e.g., 10 or 20) unless the user requests more.";
  lit "- When results indicate data quality issues, suggest creating a support ticket through the provided tool.";
  lit "Provide concise, markdown-formatted answers summarising the results." ].

(** The names of the declared tools. *)
Definition FUNCTIONS : list str :=
  [lit "ask_database"; lit "create_support_ticket"].

Definition chat_completion_request (e : env) (messages : list chat_message)
    (functions : option (list str)) : M choice :=
  logger INFO (lit "Calling OpenAI with " ++ str_of_nat (length messages)
               ++ lit " messages and "
               ++ str_of_nat (match functions with
                              | Some f => length f
                              | None => 0
                              end)
               ++ lit " tools.") ;;
  lift (provider e messages functions).

(** [try: m  except Exception as err: return h err] followed by [k]. *)
Definition try_else {A B} (m : M A) (h : exn -> M B) (k : A -> M B) : M B :=
  fun w => match m w with
           | (Ok a, w') => k a w'
           | (Raise err, w') => h err w'
           end.

(** [json.loads(function_call.get(arguments, '{}'))] *)
Definition loads_arguments (e : env) (fc : option function_call) : res parsed :=
  match fc with
  | Some {| fc_arguments := Some text |} => json_loads e text
  | _ => Ok (JObject [])
  end.

(** [arguments[key]] *)
Definition subscript (p : parsed) (key : str) : res jval :=
  match p with
  | JObject fields =>
      match dict_lookup fields key with
      | Some v => Ok v
      | None => Raise (KeyError (lit "'" ++ key ++ lit "'"))
      end
  | JNonObject _ => Raise (TypeError (lit "value cannot be indexed by a string"))
  end.

(** [arguments.get(key, default)] *)
Definition dict_get (p : parsed) (key : str) (default : jval) : res jval :=
  match p with
  | JObject fields =>
      match dict_lookup fields key with
      | Some v => Ok v
      | None => Ok default
      end
  | JNonObject _ => Raise (AttributeError (lit "object has no attribute 'get'"))
  end.

(** [execute_query(query)] for whatever the model put under [query]: a
    false value is refused as empty, another non-string has no [strip]. *)
Definition execute_query_value (e : env) (query : jval)
  : M (list str * list row) :=
  match query with
  | JString sql => execute_query e sql
  | JNonString false _ => raise (ValueError (lit "Empty SQL query."))
  | JNonString true _ => raise (AttributeError (lit "object has no attribute 'strip'"))
  end.

(** [follow_up[choices][0][message].get(content, '').strip()] *)
Definition final_text_of (c : choice) : res str :=
  match msg_content (message c) with
  | Absent => Ok (strip [])
  | Null => Raise (AttributeError (lit "'NoneType' object has no attribute 'strip'"))
  | Text s => Ok (strip s)
  end.

Definition follow_up_text (e : env) (messages : list chat_message) : M str :=
  follow_up <- chat_completion_request e messages None ;;
  lift (final_text_of follow_up).

Definition value_of_query (q : jval) : pyval :=
  match q with
  | JString s => PStr s
  | JNonString _ rendered => PStr rendered
  end.

Definition ask_database_branch (e : env) (messages : list chat_message)
    (assistant : assistant_message) : M result :=
  try_else
    (arguments <- lift (loads_arguments e (msg_function_call assistant)) ;;
     lift (subscript arguments (lit "query")))
    (fun err => ret [("error"%string,
                      PStr (lit "Failed to parse function arguments: " ++ exn_text err))])
    (fun query =>
  try_else
    (cr <- execute_query_value e query ;;
     payload <- lift (json_dumps_rows e (fst cr) (snd cr)) ;;
     ret (cr, payload))
    (fun err => ret [("error"%string, PStr (lit "Database error: " ++ exn_text err))])
    (fun crp =>
  let columns := fst (fst crp) in
  let rows := snd (fst crp) in
  let messages := messages ++ [AssistantMessage assistant;
                               FunctionMessage (lit "ask_database") (snd crp)] in
  try_else (follow_up_text e messages)
    (fun err =>
       match err with
       | HTTPError response_text _ =>
           ret [("error"%string,
                 PStr (lit "OpenAI API error on follow-up call: " ++ response_text));
                ("columns"%string, PColumns columns);
                ("rows"%string, PRows rows)]
       | _ =>
           ret [("error"%string,
                 PStr (lit "OpenAI follow-up failed: " ++ exn_text err));
                ("columns"%string, PColumns columns);
                ("rows"%string, PRows rows)]
       end)
    (fun final_text =>
       logger INFO (lit "Answered question with " ++ str_of_nat (length rows)
                    ++ lit " rows and message length "
                    ++ str_of_nat (length final_text)) ;;
       ret [("text"%string, PStr final_text);
            ("columns"%string, PColumns columns);
            ("rows"%string, PRows rows);
            ("query"%string, value_of_query query)]))).

Definition create_support_ticket_branch (e : env) (messages : list chat_message)
    (assistant : assistant_message) : M result :=
  try_else (lift (loads_arguments e (msg_function_call assistant)))
    (fun err => ret [("error"%string,
                      PStr (lit "Failed to parse function arguments: " ++ exn_text err))])
    (fun arguments =>
  arg_title <- lift (dict_get arguments (lit "title") (JString (lit "Untitled issue"))) ;;
  arg_description <- lift (dict_get arguments (lit "description") (JString [])) ;;
  arg_priority <- lift (dict_get arguments (lit "priority") (JString (lit "medium"))) ;;
  ticket <- create_support_ticket e arg_title arg_description arg_priority ;;
  let messages := messages ++ [AssistantMessage assistant;
                               FunctionMessage (lit "create_support_ticket")
                                               (json_dumps_ticket e ticket)] in
  final_text <- try (follow_up_text e messages)
                    (fun err => ret (lit "Ticket created: " ++ ticket_id ticket
                                     ++ lit ". (Follow-up call failed: "
                                     ++ exn_text err ++ lit ")")) ;;
  logger INFO (lit "Support ticket " ++ ticket_id ticket
               ++ lit " created via agent with priority "
               ++ py_format (priority ticket)) ;;
  ret [("text"%string, PStr final_text); ("ticket"%string, PTicket ticket)]).

Definition content_or_default (m : assistant_message) : pyval :=
  match msg_content m with
  | Absent => PStr (lit "No response received.")
  | Null => PNone
  | Text s => PStr s
  end.

Definition is_name (name : option str) (expected : str) : bool :=
  match name with
  | Some n => str_eqb n expected
  | None => false
  end.

Definition run_agent (e : env) (question : str) : M result :=
  match OPENAI_API_KEY e with
  | None | Some [] =>
      ret [("error"%string,
            PStr (lit "OPENAI_API_KEY is not set. Add it to your .env file."))]
  | Some (_ :: _) =>
      logger INFO (lit "Received user question: " ++ question) ;;
      let messages := [SystemMessage SYSTEM_PROMPT; UserMessage question] in
      try_else (chat_completion_request e messages (Some FUNCTIONS))
        (fun err =>
           match err with
           | HTTPError response_text _ =>
               ret [("error"%string, PStr (lit "OpenAI API error: " ++ response_text))]
           | _ =>
               ret [("error"%string,
                     PStr (lit "OpenAI request failed: " ++ exn_text err))]
           end)
        (fun first =>
           let assistant := message first in
           if negb (is_name (finish_reason first) (lit "function_call"))
           then ret [("text"%string, content_or_default assistant)]
           else
             let fn_name := match msg_function_call assistant with
                            | Some fc => fc_name fc
                            | None => None
                            end in
             if is_name fn_name (lit "ask_database")
             then ask_database_branch e messages assistant
             else if is_name fn_name (lit "create_support_ticket")
             then create_support_ticket_branch e messages assistant
             else ret [("error"%string,
                        PStr (lit "Unknown function requested: "
                              ++ match fn_name with
                                 | Some n => n
                                 | None => lit "None"
                                 end))])
  end.

(** ** Notions the properties are stated with *)

(** [s.split(sep)] for a separator of one character. *)
Fixpoint split (s : str) (sep : ascii) : list str :=
  match s with
  | [] => [[]]
  | c :: s' =>
      if Ascii.eqb c sep then [] :: split s' sep
      else match split s' sep with
           | f :: fs => (c :: f) :: fs
           | [] => [[c]]
           end
  end.

(** The statements of a text: its pieces between semicolons that are not
    blank. *)
Definition statements (sql : str) : list str :=
  filter (fun piece => negb (str_eqb (strip piece) [])) (split sql semicolon).

Definition cr : ascii := "013"%char.

(** What a reader with universal newlines returns for a text: the line
    ends CR LF and CR are turned into LF. *)
Definition universal_newlines (text : str) : str :=
  replace (replace text [cr; nl] [nl]) [cr] [nl].

(** Two texts differ at a position both have. *)
Fixpoint differ (a b : str) : bool :=
  match a, b with
  | x :: a', y :: b' => negb (Ascii.eqb x y) || differ a' b'
  | _, _ => false
  end.

Definition valid_priority (p : str) : Prop :=
  p = lit "low" \/ p = lit "medium" \/ p = lit "high".

Definition initial_world : world :=
  {| log := []; ticket_file := None; ticks := 0 |}.

(** ** Sample surroundings *)

Definition sample_clock (k : nat) : datetime :=
  {| year := 2024; month := 5; day := 17;
     hour := 12; minute := 30; second := 7;
     microsecond := 250000 + Z.of_nat k |}%Z.

(** A process with a key, a provider that answers a call with tools by
    [first] and a call without tools by [follow_up], and a JSON decoder
    that yields [arguments]. *)
Definition sample_env (first follow_up : res choice) (db : str -> res cursor)
    (arguments : res parsed) : env :=
  {| OPENAI_API_KEY := Some (lit "sk-sample");
     provider := fun _ functions =>
                   match functions with
                   | Some _ => first
                   | None => follow_up
                   end;
     connect := Ok tt;
     database := db;
     json_loads := fun _ => arguments;
     json_dumps_rows := fun _ _ => Ok (lit "{}");
     json_dumps_ticket := fun _ => lit "{}";
     clock := sample_clock;
     utcoffset := fun _ => 0%Z |}.

(** A clock whose every reading is one second after the one before. *)
Definition stepping_clock (k : nat) : datetime :=
  {| year := 2024; month := 5; day := 17;
     hour := 12; minute := 30; second := Z.of_nat k; microsecond := 0 |}%Z.

Definition with_clock (c : nat -> datetime) (e : env) : env :=
  {| OPENAI_API_KEY := OPENAI_API_KEY e;
     provider := provider e;
     connect := connect e;
     database := database e;
     json_loads := json_loads e;
     json_dumps_rows := json_dumps_rows e;
     json_dumps_ticket := json_dumps_ticket e;
     clock := c;
     utcoffset := utcoffset e |}.

(** The zone of New York around the start of summer time in 2024: five
    hours behind UTC until 2024-03-10 07:00:00 UTC, four hours from then. *)
Definition new_york_2024 (u : Z) : Z :=
  if (u <? 1710054000)%Z then (-18000)%Z else (-14400)%Z.

Definition at_time (y mo d h mi s us : Z) : datetime :=
  {| year := y; month := mo; day := d;
     hour := h; minute := mi; second := s; microsecond := us |}.

(** An engine that answers every statement with its own text. *)
Definition echo_db (sql : str) : res cursor :=
  Ok {| description := Some [lit "sql"];
        pending := [[SqlText sql]];
        failure := None |}.

(** An engine whose every result has 500 rows. *)
Definition wide_db (_ : str) : res cursor :=
  Ok {| description := Some [lit "n"];
        pending := repeat [SqlInt 1] 500;
        failure := None |}.

Definition tool_call (name arguments : str) : res choice :=
  Ok {| finish_reason := Some (lit "function_call");
        message := {| msg_content := Null;
                      msg_function_call :=
                        Some {| fc_name := Some name;
                                fc_arguments := Some arguments |} |} |}.

Definition outage : res choice :=
  Raise (RequestException (lit "connection refused")).

Definition answer (text : str) : res choice :=
  Ok {| finish_reason := Some (lit "stop");
        message := {| msg_content := Text text;
                      msg_function_call := None |} |}.

Definition directors_query : str :=
  lit "SELECT TRIM(value) AS director, COUNT(*) AS n FROM netflix_titles, json_each(directors) GROUP BY director ORDER BY n DESC LIMIT 10".

Definition directors_query_executed : str :=
  lit "SELECT TRIM(value) AS director, COUNT(*) AS n FROM netflix_titles, "
  ++ safe_expansion ++ lit " GROUP BY director ORDER BY n DESC LIMIT 10".

Definition has_entry (entries : list (level * str)) (entry : level * str) : bool :=
  existsb (fun x => match fst x, fst entry with
                    | INFO, INFO | WARNING, WARNING => str_eqb (snd x) (snd entry)
                    | _, _ => false
                    end) entries.

Definition follow_up_fallback (tk : ticket) (err : exn) : str :=
  lit "Ticket created: " ++ ticket_id tk
  ++ lit ". (Follow-up call failed: " ++ exn_text err ++ lit ")".

Definition follow_up_error (err : exn) : str :=
  match err with
  | HTTPError response_text _ =>
      lit "OpenAI API error on follow-up call: " ++ response_text
  | _ => lit "OpenAI follow-up failed: " ++ exn_text err
  end.

Definition select_one_env : env :=
  sample_env (tool_call (lit "ask_database") (lit "{}")) outage echo_db
    (Ok (JObject [(lit "query", JString (lit "SELECT 1"))])).

Definition release_year_env : env :=
  sample_env (tool_call (lit "create_support_ticket") (lit "{}")) outage echo_db
    (Ok (JObject [(lit "title", JString (lit "Wrong release year"));
                  (lit "description",
                   JString (lit "The release year for show X is wrong"))])).

Definition urgent_env : env :=
  sample_env (tool_call (lit "create_support_ticket") (lit "{}"))
    (answer (lit "Ticket filed.")) echo_db
    (Ok (JObject [(lit "title", JString (lit "Bad data"));
                  (lit "description", JString (lit "Director field garbled"));
                  (lit "priority", JString (lit "urgent"))])).

Definition sample_call (name : str) : function_call :=
  {| fc_name := Some name; fc_arguments := Some (lit "{}") |}.

Definition sample_choice (name : str) : choice :=
  {| finish_reason := Some (lit "function_call");
     message := {| msg_content := Null;
                   msg_function_call := Some (sample_call name) |} |}.

Definition truncation_warning : level * str :=
  (WARNING, lit "Result truncated to first " ++ str_of_nat MAX_ROWS
            ++ lit " rows to protect data.").

(** ** The page around the dispatcher *)

(** What the page shows: one constructor per [st] call. *)
Inductive widget : Type :=
| StWarning (msg : str)
| StError (v : pyval)
| StMarkdown (v : pyval)
| StDataframe (columns rows : pyval)
| StCode (v : pyval)
| StSuccess (msg : str).

(** [key in d] *)
Definition has_key (d : result) (key : string) : bool :=
  match get d key with
  | Some _ => true
  | None => false
  end.

(** Truth value of [d.get(key)]. *)
Definition truthy (v : option pyval) : bool :=
  match v with
  | None | Some PNone | Some (PStr []) | Some (PColumns []) | Some (PRows []) => false
  | Some _ => true
  end.

Definition or_none (v : option pyval) : pyval :=
  match v with
  | Some x => x
  | None => PNone
  end.

(** The rendering of a result of [run_agent]; subscripting a value that is
    not a ticket raises. *)
Definition render (d : result) : res (list widget) :=
  if has_key d "error"
  then Ok [StError (or_none (get d "error"))]
  else
    let text := if truthy (get d "text")
                then [StMarkdown (or_none (get d "text"))] else [] in
    let table := if truthy (get d "columns") && truthy (get d "rows")
                 then [StDataframe (or_none (get d "columns"))
                                   (or_none (get d "rows"))]
                 else [] in
    let code := if truthy (get d "query")
                then [StCode (or_none (get d "query"))] else [] in
    if truthy (get d "ticket")
    then match get d "ticket" with
         | Some (PTicket t) =>
             Ok (text ++ table ++ code
                 ++ [StSuccess (lit "Support ticket created: " ++ ticket_id t
                                ++ lit " (priority: " ++ py_format (priority t)
                                ++ lit ")")])
         | _ => Raise (TypeError (lit "value cannot be indexed by a string"))
         end
    else Ok (text ++ table ++ code).

(** The handler of the button [Ask the agent]. *)
Definition ask_button (e : env) (question : str) : M (list widget) :=
  match strip question with
  | [] => ret [StWarning (lit "Please enter a question before submitting.")]
  | _ :: _ =>
      d <- run_agent e (strip question) ;;
      lift (render d)
  end.

(** The handler of the form [Create ticket]; the priority comes from a
    select box. *)
Definition ticket_form (e : env) (ticket_title ticket_description ticket_priority : str)
  : M (list widget) :=
  match strip ticket_title, strip ticket_description with
  | _ :: _, _ :: _ =>
      tk <- create_support_ticket e (JString (strip ticket_title))
              (JString (strip ticket_description)) (JString ticket_priority) ;;
      logger INFO (lit "Manual ticket " ++ ticket_id tk ++ lit " created from UI.") ;;
      ret [StSuccess (lit "Ticket " ++ ticket_id tk
                      ++ lit " created. A human analyst will contact you soon.")]
  | _, _ => ret [StWarning (lit "Please provide both a title and a description.")]
  end.

(** What [run_agent] can return. *)
Inductive result_shape : result -> Prop :=
| shape_error (msg : str) :
    result_shape [("error"%string, PStr msg)]
| shape_direct (v : pyval) :
    result_shape [("text"%string, v)]
| shape_partial (msg : str) (cols : list str) (rows : list row) :
    length rows <= MAX_ROWS ->
    result_shape [("error"%string, PStr msg);
                  ("columns"%string, PColumns cols);
                  ("rows"%string, PRows rows)]
| shape_answer (text : str) (cols : list str) (rows : list row) (q : pyval) :
    length rows <= MAX_ROWS ->
    result_shape [("text"%string, PStr text);
                  ("columns"%string, PColumns cols);
                  ("rows"%string, PRows rows);
                  ("query"%string, q)]
| shape_ticket (text : str) (tk : ticket) :
    result_shape [("text"%string, PStr text); ("ticket"%string, PTicket tk)].

(** The world after the first model call of [run_agent]: two more log
    entries. *)
Definition after_first_call (question : str) (w : world) : world :=
  {| log := log w ++ [(INFO, lit "Received user question: " ++ question);
                      (INFO, lit "Calling OpenAI with 2 messages and 2 tools.")];
     ticket_file := ticket_file w;
     ticks := ticks w |}.

(** The conversation of the second model call. *)
Definition second_round (question : str) (assistant : assistant_message)
    (name payload : str) : list chat_message :=
  [SystemMessage SYSTEM_PROMPT; UserMessage question;
   AssistantMessage assistant; FunctionMessage name payload].

(** Whether the first answer of the model selects the ticket tool. *)
Definition selects_ticket_tool (c : choice) : bool :=
  is_name (finish_reason c) (lit "function_call")
  && is_name (match msg_function_call (message c) with
              | Some fc => fc_name fc
              | None => None
              end) (lit "create_support_ticket").

(** The character-wise effect of the two replacements of [sanitize]. *)
Definition blank_separator (c : ascii) : ascii :=
  if Ascii.eqb c nl || Ascii.eqb c ","%char then " "%char else c.

(** ** The batch script *)

Module ResponsesAI.

(** What the script can change: what it printed and how many database
    connections are open. *)
Record script_world : Type := {
  stdout : list str;
  open_connections : nat
}.

(** [ask_database] returns the rows or raises [Exception(msg)]. *)
Inductive outcome : Type :=
| Returned (rows : list row)
| Raised (msg : str).

Definition print (line : str) (w : script_world) : script_world :=
  {| stdout := stdout w ++ [line]; open_connections := open_connections w |}.

(** [conn.close()] in the [finally] part. *)
Definition close (w : script_world) : script_world :=
  {| stdout := stdout w; open_connections := Nat.pred (open_connections w) |}.

(** [cursor.fetchall()] *)
Definition fetchall (cur : cursor) : res (list row) :=
  match failure cur with
  | Some err => Raise err
  | None => Ok (pending cur)
  end.

Definition safe_query_of (query : str) : str :=
  replace (replace query raw_directors safe_expansion)
          raw_ifnull_directors safe_expansion.

Definition ask_database (e : env) (query : str) (w : script_world)
  : outcome * script_world :=
  match connect e with
  | Raise err => (Raised (lit "SQL error: " ++ exn_text err), w)
  | Ok _ =>
      let w := {| stdout := stdout w;
                  open_connections := S (open_connections w) |} in
      let w := print (lit "Executing query:  " ++ query) w in
      let safe_query := safe_query_of query in
      let w := if str_eqb safe_query query then w
               else print (lit "Adjusted query for safe JSON expansion.") w in
      match database e safe_query with
      | Raise err => (Raised (lit "SQL error: " ++ exn_text err), close w)
      | Ok cur =>
          match fetchall cur with
          | Raise err => (Raised (lit "SQL error: " ++ exn_text err), close w)
          | Ok results =>
              (Returned results,
               close (print (lit "Query returned " ++ str_of_nat (length results)
                             ++ lit " rows.") w))
          end
      end
  end.

End ResponsesAI.

(** * Properties *)

(** ** Characters and prefixes *)

Lemma eqb_false_neq (a b : ascii) : Ascii.eqb a b = false <-> a <> b.
Proof.
  destruct (Ascii.eqb_spec a b); split; intros; congruence.
Qed.

Lemma startswith_nil_r (s : str) : startswith s [] = true.
Proof. destruct s; reflexivity. Qed.

Lemma startswith_cons (c a : ascii) (s p : str) :
  startswith (c :: s) (a :: p) = Ascii.eqb a c && startswith s p.
Proof. reflexivity. Qed.

Lemma startswith_split (s p : str) :
  startswith s p = true -> s = p ++ skipn (length p) s.
Proof.
  revert s. induction p as [|a p IH]; intros s H.
  - reflexivity.
  - destruct s as [|c s]; [discriminate|].
    rewrite startswith_cons in H. apply andb_true_iff in H as [Hac Hp].
    apply Ascii.eqb_eq in Hac. subst c. simpl. f_equal. now apply IH.
Qed.

Lemma count_app (a b : str) (c : ascii) :
  count (a ++ b) c = count a c + count b c.
Proof.
  induction a as [|x a IH]; simpl; [reflexivity|]. rewrite IH. lia.
Qed.

Lemma count_lstrip (s : str) (c : ascii) :
  isspace c = false -> count (lstrip s) c = count s c.
Proof.
  intros Hc. induction s as [|x s IH]; simpl; [reflexivity|].
  destruct (isspace x) eqn:Hx; [|reflexivity].
  destruct (Ascii.eqb_spec x c); [congruence|]. now rewrite IH.
Qed.

Lemma count_rstrip (s : str) (c : ascii) :
  isspace c = false -> count (rstrip s) c = count s c.
Proof.
  intros Hc. induction s as [|x s IH]; simpl; [reflexivity|].
  destruct (rstrip s) as [|y r] eqn:Hr.
  - rewrite <- IH. simpl.
    destruct (isspace x) eqn:Hx; simpl; [|lia].
    destruct (Ascii.eqb_spec x c); [congruence|reflexivity].
  - rewrite <- IH. reflexivity.
Qed.

Lemma count_strip (s : str) (c : ascii) :
  isspace c = false -> count (strip s) c = count s c.
Proof.
  intros Hc. unfold strip. now rewrite count_rstrip, count_lstrip.
Qed.

(** ** The scan of [replace] *)

Lemma replace_scan_hit (c o : ascii) (s old new : str) :
  startswith (c :: s) (o :: old) = true ->
  replace_scan (c :: s) (o :: old) new
  = new ++ replace_scan (skipn (length old) s) (o :: old) new.
Proof.
  intros H. simp replace_scan. rewrite H. reflexivity.
Qed.

Lemma replace_scan_miss (c : ascii) (s old new : str) :
  startswith (c :: s) old = false ->
  replace_scan (c :: s) old new = c :: replace_scan s old new.
Proof.
  intros H. simp replace_scan. rewrite H. reflexivity.
Qed.

(** Induction along the scan for a non-empty pattern. *)
Lemma replace_scan_ind (o : ascii) (old new : str) (P : str -> str -> Prop) :
  P [] [] ->
  (forall c s,
      startswith (c :: s) (o :: old) = true ->
      P (skipn (length old) s) (replace_scan (skipn (length old) s) (o :: old) new) ->
      P (c :: s) (new ++ replace_scan (skipn (length old) s) (o :: old) new)) ->
  (forall c s,
      startswith (c :: s) (o :: old) = false ->
      P s (replace_scan s (o :: old) new) ->
      P (c :: s) (c :: replace_scan s (o :: old) new)) ->
  forall s, P s (replace_scan s (o :: old) new).
Proof.
  intros Hnil Hhit Hmiss s.
  induction s as [s IH] using (induction_ltof1 _ (@length ascii)).
  unfold ltof in IH. destruct s as [|c s].
  - rewrite replace_scan_equation_1. exact Hnil.
  - destruct (startswith (c :: s) (o :: old)) eqn:Hs.
    + rewrite (replace_scan_hit _ _ _ _ _ Hs). apply Hhit; [exact Hs|].
      apply IH. rewrite length_skipn. simpl. lia.
    + rewrite (replace_scan_miss _ _ _ _ Hs). apply Hmiss; [exact Hs|].
      apply IH. simpl. lia.
Qed.

Lemma replace_scan_count (o : ascii) (old new s : str) (c : ascii) :
  count (o :: old) c = 0 -> count new c = 0 ->
  count (replace_scan s (o :: old) new) c = count s c.
Proof.
  intros Hold Hnew.
  apply (replace_scan_ind o old new (fun s out => count out c = count s c)).
  - reflexivity.
  - intros x t Hhit IH.
    pose proof (startswith_split _ _ Hhit) as E. simpl skipn in E.
    rewrite E, !count_app, IH, Hold, Hnew. reflexivity.
  - intros x t _ IH. simpl. now rewrite IH.
Qed.

Lemma replace_scan_nil_inv (o n : ascii) (old new s : str) :
  replace_scan s (o :: old) (n :: new) = [] -> s = [].
Proof.
  apply (replace_scan_ind o old (n :: new) (fun s out => out = [] -> s = []));
    [reflexivity | discriminate | discriminate].
Qed.

Lemma contains_false_skipn (s p : str) (n : nat) :
  contains s p = false -> startswith (skipn n s) p = false.
Proof.
  revert s. induction n as [|n IH]; intros s H.
  - destruct s; simpl in *; apply orb_false_iff in H; tauto.
  - destruct s as [|x s]; simpl in *.
    + apply orb_false_iff in H. tauto.
    + apply orb_false_iff in H as [_ H]. now apply IH.
Qed.

Lemma replace_scan_absent (o : ascii) (old new s : str) :
  contains s (o :: old) = false -> replace_scan s (o :: old) new = s.
Proof.
  apply (replace_scan_ind o old new
           (fun s out => contains s (o :: old) = false -> out = s)).
  - reflexivity.
  - intros x t Hhit _ H. simpl in H, Hhit. rewrite Hhit in H. discriminate.
  - intros x t _ IH H. f_equal. apply IH.
    simpl in H. apply orb_false_iff in H. tauto.
Qed.

(** *** A pattern and a replacement that start with a character occurring
    nowhere else in them *)

Section Marker.

Variable j : ascii.
Variables old new : str.
Hypothesis new_fresh : count new j = 0.

Lemma startswith_fresh_head (x : str) (q : str) :
  count q j = 0 -> q <> [] -> startswith (j :: x) q = false.
Proof.
  intros Hq Hne. destruct q as [|a q]; [congruence|].
  simpl in *. destruct (Ascii.eqb_spec a j); [discriminate|reflexivity].
Qed.

Lemma startswith_replace_scan_fresh (s q : str) :
  count q j = 0 ->
  startswith (replace_scan s (j :: old) (j :: new)) q = startswith s q.
Proof.
  revert q.
  apply (replace_scan_ind j old (j :: new)
           (fun s out => forall q, count q j = 0 ->
                                   startswith out q = startswith s q)).
  - reflexivity.
  - intros c t Hhit _ q Hq.
    simpl in Hhit. apply andb_true_iff in Hhit as [Hc _].
    apply Ascii.eqb_eq in Hc. subst c.
    destruct q as [|a q]; [reflexivity|].
    change ((j :: new) ++ ?x) with (j :: new ++ x).
    rewrite !startswith_fresh_head; trivial; discriminate.
  - intros c t _ IH q Hq. destruct q as [|a q]; [reflexivity|].
    simpl. rewrite IH; [reflexivity|].
    simpl in Hq. destruct (Ascii.eqb a j); [discriminate|exact Hq].
Qed.

Variable p : str.
Hypothesis p_fresh : count p j = 0.
Hypothesis p_differs : differ p new = true.

Lemma differ_startswith (a b x : str) :
  differ a b = true -> startswith (b ++ x) a = false.
Proof.
  revert b. induction a as [|u a IH]; intros [|v b] H; try discriminate.
  simpl in *. destruct (Ascii.eqb_spec u v); simpl in *; [|reflexivity].
  now apply IH.
Qed.

Lemma contains_behind_fresh (n x : str) :
  count n j = 0 -> contains (n ++ x) (j :: p) = contains x (j :: p).
Proof.
  induction n as [|a n IH]; intros Hn; [reflexivity|].
  simpl in Hn. destruct (Ascii.eqb_spec a j) as [|Hne]; [discriminate|].
  change (contains ((a :: n) ++ x) (j :: p))
    with (startswith (a :: n ++ x) (j :: p) || contains (n ++ x) (j :: p)).
  rewrite startswith_cons.
  assert (Hja : Ascii.eqb j a = false) by (apply eqb_false_neq; congruence).
  rewrite Hja. simpl. now apply IH.
Qed.

Lemma contains_behind_new (x : str) :
  contains ((j :: new) ++ x) (j :: p) = contains x (j :: p).
Proof.
  change (contains ((j :: new) ++ x) (j :: p))
    with (startswith (j :: new ++ x) (j :: p) || contains (new ++ x) (j :: p)).
  rewrite startswith_cons, (differ_startswith _ _ _ p_differs), andb_false_r.
  simpl. now apply contains_behind_fresh.
Qed.

(** No occurrence of [j :: p] is left, provided that [s] has one only
    where the scan finds the pattern [j :: old]. *)
Lemma replace_scan_clears (s : str) :
  (forall n, startswith (skipn n s) (j :: old) = false ->
             startswith (skipn n s) (j :: p) = false) ->
  contains (replace_scan s (j :: old) (j :: new)) (j :: p) = false.
Proof.
  apply (replace_scan_ind j old (j :: new)
           (fun s out =>
              (forall n, startswith (skipn n s) (j :: old) = false ->
                         startswith (skipn n s) (j :: p) = false) ->
              contains out (j :: p) = false)).
  - intros _. reflexivity.
  - intros c t _ IH Hcov. rewrite contains_behind_new. apply IH.
    intros n. rewrite skipn_skipn. exact (Hcov (S (n + length old))).
  - intros c t Hmiss IH Hcov.
    change (contains (c :: ?x) (j :: p))
      with (startswith (c :: x) (j :: p) || contains x (j :: p)).
    rewrite IH; [|intros n; apply (Hcov (S n))].
    rewrite orb_false_r, startswith_cons.
    rewrite startswith_replace_scan_fresh by exact p_fresh.
    rewrite <- startswith_cons. apply (Hcov 0). exact Hmiss.
Qed.

End Marker.

Lemma startswith_lower_replace_scan (j : ascii) (old new q s : str) :
  lower_char j = j -> count q j = 0 ->
  startswith (lower s) q = true ->
  startswith (lower (replace_scan s (j :: old) new)) q = true.
Proof.
  intros Hj. revert s. induction q as [|a q IH]; intros s Hq H.
  - apply startswith_nil_r.
  - destruct s as [|c s]; [discriminate|].
    simpl in H, Hq. apply andb_true_iff in H as [Hac Hs].
    apply Ascii.eqb_eq in Hac.
    destruct (Ascii.eqb_spec a j) as [|Haj]; [discriminate|].
    assert (Hcj : Ascii.eqb j c = false).
    { apply eqb_false_neq. intros <-. congruence. }
    rewrite replace_scan_miss by (simpl; now rewrite Hcj).
    simpl. rewrite Hac, Ascii.eqb_refl. simpl. now apply IH.
Qed.

(** ** Trailing white space *)

Lemma rstrip_tail {c : ascii} {s : str} :
  rstrip (c :: s) = c :: s -> rstrip s = s.
Proof.
  simpl. destruct (rstrip s) as [|y r] eqn:Hr.
  - destruct (isspace c); intros H; inversion H. reflexivity.
  - intros H. now inversion H.
Qed.

Lemma rstrip_idem (s : str) : rstrip (rstrip s) = rstrip s.
Proof.
  induction s as [|c s IH]; [reflexivity|]. simpl.
  destruct (rstrip s) as [|y r] eqn:Hr.
  - destruct (isspace c) eqn:Hc; [reflexivity|]. simpl. now rewrite Hc.
  - simpl. simpl in IH. now rewrite IH.
Qed.

Lemma rstrip_app (a b : str) :
  rstrip a = a -> rstrip b = b -> rstrip (a ++ b) = a ++ b.
Proof.
  intros Ha Hb. induction a as [|x a IH]; [exact Hb|].
  specialize (IH (rstrip_tail Ha)).
  rewrite <- app_comm_cons. cbn [rstrip]. rewrite IH.
  destruct (a ++ b) as [|y r] eqn:Hab; [|reflexivity].
  apply app_eq_nil in Hab as [-> ->]. exact Ha.
Qed.

Lemma rstrip_skipn (n : nat) (s : str) :
  rstrip s = s -> rstrip (skipn n s) = skipn n s.
Proof.
  revert s. induction n as [|n IH]; intros s H; [exact H|].
  destruct s as [|c s]; [reflexivity|]. simpl. apply IH.
  exact (rstrip_tail H).
Qed.

Lemma rstrip_replace_scan (o n : ascii) (old new s : str) :
  rstrip (n :: new) = n :: new -> rstrip s = s ->
  rstrip (replace_scan s (o :: old) (n :: new))
  = replace_scan s (o :: old) (n :: new).
Proof.
  intros Hnew.
  apply (replace_scan_ind o old (n :: new)
           (fun s out => rstrip s = s -> rstrip out = out)).
  - reflexivity.
  - intros c t _ IH H. apply rstrip_app; [exact Hnew|].
    apply IH, rstrip_skipn. exact (rstrip_tail H).
  - intros c t _ IH H. specialize (IH (rstrip_tail H)).
    cbn [rstrip]. rewrite IH.
    destruct (replace_scan t (o :: old) (n :: new)) as [|y r] eqn:Hout;
      [|reflexivity].
    apply replace_scan_nil_inv in Hout. subst t. exact H.
Qed.

Lemma isspace_lower_char (c : ascii) : isspace (lower_char c) = isspace c.
Proof.
  destruct c as [b0 b1 b2 b3 b4 b5 b6 b7].
  destruct b0, b1, b2, b3, b4, b5, b6, b7; reflexivity.
Qed.

(** ** The rewriter *)

Lemma normalise_ok_inv {sql out : str} :
  _normalise_query sql = Ok out ->
  (startswith (lower (strip sql)) (lit "select") = true
   \/ startswith (lower (strip sql)) (lit "with") = true)
  /\ out = replace (replace (strip sql) raw_directors safe_expansion)
                   raw_ifnull_directors safe_expansion
  /\ count (strip out) semicolon <= 1.
Proof.
  unfold _normalise_query. destruct sql as [|c sql]; [discriminate|].
  set (stripped := strip (c :: sql)).
  destruct (startswith (lower stripped) (lit "select")
            || startswith (lower stripped) (lit "with")) eqn:Hs;
    [|discriminate].
  cbn [negb].
  set (safe := replace (replace stripped raw_directors safe_expansion)
                       raw_ifnull_directors safe_expansion).
  destruct (1 <? count (strip safe) semicolon) eqn:Hc; [discriminate|].
  intros [= <-]. apply orb_true_iff in Hs. apply Nat.ltb_ge in Hc.
  repeat split; [exact Hs | exact Hc].
Qed.

Lemma rewritten_clear (s : str) :
  let out := replace (replace s raw_directors safe_expansion)
                     raw_ifnull_directors safe_expansion in
  contains out raw_directors = false
  /\ contains out raw_ifnull_directors = false.
Proof.
  cbv zeta.
  change raw_directors with ("j"%char :: lit "son_each(directors)").
  change raw_ifnull_directors
    with ("j"%char :: lit "son_each(IFNULL(directors, ''))").
  change safe_expansion
    with ("j"%char :: lit "son_each(" ++ replacement ++ lit ")").
  unfold replace. split.
  - apply replace_scan_clears; try reflexivity.
    intros n _. apply contains_false_skipn.
    apply replace_scan_clears; try reflexivity. auto.
  - apply replace_scan_clears; try reflexivity. auto.
Qed.

Lemma contains_true_iff (s p : str) :
  contains s p = true <-> exists pre suf, s = pre ++ p ++ suf.
Proof.
  split.
  - induction s as [|c s IH]; simpl; intros H.
    + apply orb_true_iff in H as [H|H]; [|discriminate].
      exists [], (skipn (length p) []). now apply startswith_split.
    + apply orb_true_iff in H as [H|H].
      * exists [], (skipn (length p) (c :: s)). now apply startswith_split.
      * destruct (IH H) as (pre & suf & ->). now exists (c :: pre), suf.
  - intros (pre & suf & ->). induction pre as [|c pre IH].
    + assert (H : startswith (p ++ suf) p = true).
      { clear. induction p as [|a p IH]; [apply startswith_nil_r|].
        simpl. now rewrite Ascii.eqb_refl. }
      simpl. destruct (p ++ suf); simpl in *; now rewrite H.
    + simpl. rewrite IH. apply orb_true_r.
Qed.

Lemma accepted_shape {sql out : str} :
  _normalise_query sql = Ok out ->
  (startswith (lower out) (lit "select") = true
   \/ startswith (lower out) (lit "with") = true)
  /\ rstrip out = out.
Proof.
  intros H. apply normalise_ok_inv in H as (Hs & -> & _).
  change raw_directors with ("j"%char :: lit "son_each(directors)").
  change raw_ifnull_directors
    with ("j"%char :: lit "son_each(IFNULL(directors, ''))").
  change safe_expansion
    with ("j"%char :: lit "son_each(" ++ replacement ++ lit ")").
  unfold replace. split.
  - destruct Hs as [Hs|Hs]; [left|right];
      repeat apply startswith_lower_replace_scan; trivial.
  - repeat apply rstrip_replace_scan; try reflexivity.
    apply rstrip_idem.
Qed.

Lemma strip_fixed (out q : str) (a : ascii) :
  isspace a = false ->
  startswith (lower out) (a :: q) = true -> rstrip out = out ->
  strip out = out /\ out <> [].
Proof.
  intros Ha Hs Hr. destruct out as [|c out]; [discriminate|].
  split; [|discriminate].
  simpl in Hs. apply andb_true_iff in Hs as [Hc _].
  apply Ascii.eqb_eq in Hc. rewrite Hc, isspace_lower_char in Ha.
  unfold strip. cbn [lstrip]. rewrite Ha. exact Hr.
Qed.

Lemma accepted_strip_fixed {sql out : str} :
  _normalise_query sql = Ok out -> strip out = out /\ out <> [].
Proof.
  intros H. destruct (accepted_shape H) as [[Hs|Hs] Hr].
  - exact (strip_fixed out (lit "elect") "s"%char eq_refl Hs Hr).
  - exact (strip_fixed out (lit "ith") "w"%char eq_refl Hs Hr).
Qed.

(** C2: whatever [_normalise_query] returns holds no occurrence of
    [json_each(directors)] and none of [json_each(IFNULL(directors, ''))];
    it is the trimmed input with both patterns replaced by the safe
    expansion. *)
Theorem normalise_output_has_no_raw_pattern (sql out : str) :
  _normalise_query sql = Ok out ->
  out = replace (replace (strip sql) raw_directors safe_expansion)
                raw_ifnull_directors safe_expansion
  /\ ~ (exists pre suf, out = pre ++ raw_directors ++ suf)
  /\ ~ (exists pre suf, out = pre ++ raw_ifnull_directors ++ suf).
Proof.
  intros H. apply normalise_ok_inv in H as (_ & -> & _).
  destruct (rewritten_clear (strip sql)) as [H1 H2].
  split; [reflexivity|].
  split; intros Hocc; apply contains_true_iff in Hocc; congruence.
Qed.

Lemma normalise_output_has_no_raw_pattern_witness :
  let sql :=
    lit " select value from netflix_titles, json_each(directors), json_each(IFNULL(directors, ''));" in
  let out :=
    lit "select value from netflix_titles, " ++ safe_expansion ++ lit ", "
    ++ safe_expansion ++ lit ";" in
  _normalise_query sql = Ok out
  /\ ~ (exists pre suf, out = pre ++ raw_directors ++ suf)
  /\ ~ (exists pre suf, out = pre ++ raw_ifnull_directors ++ suf).
Proof.
  intros sql out.
  assert (H : _normalise_query sql = Ok out) by (vm_compute; reflexivity).
  split; [exact H|].
  exact (proj2 (normalise_output_has_no_raw_pattern sql out H)).
Defined.

(** C4: [_normalise_query] raises, and then a [ValueError], exactly when
    the input is empty or only white space, or its trimmed lower-cased
    text starts with neither [select] nor [with], or it holds more than
    one semicolon; on every other input it returns. *)
Theorem normalise_raises_iff (sql : str) :
  let refused :=
    strip sql = []
    \/ (startswith (lower (strip sql)) (lit "select") = false
        /\ startswith (lower (strip sql)) (lit "with") = false)
    \/ 1 < count sql semicolon in
  ((exists e, _normalise_query sql = Raise e) <-> refused)
  /\ (forall e, _normalise_query sql = Raise e -> exists msg, e = ValueError msg)
  /\ (~ refused -> exists out, _normalise_query sql = Ok out).
Proof.
  cbv zeta.
  assert (Hcount : count (strip (replace (replace (strip sql) raw_directors
                                    safe_expansion)
                            raw_ifnull_directors safe_expansion)) semicolon
                   = count sql semicolon).
  { change raw_directors with ("j"%char :: lit "son_each(directors)").
    change raw_ifnull_directors
      with ("j"%char :: lit "son_each(IFNULL(directors, ''))").
    unfold replace.
    rewrite count_strip, !replace_scan_count, count_strip; reflexivity. }
  unfold _normalise_query. destruct sql as [|c sql].
  - split; [|split].
    + split; [intros _; now left | intros _; eexists; reflexivity].
    + intros e [= <-]. eexists; reflexivity.
    + intros H. exfalso. apply H. now left.
  - set (stripped := strip (c :: sql)) in *.
    destruct (startswith (lower stripped) (lit "select")) eqn:Hsel;
      [|destruct (startswith (lower stripped) (lit "with")) eqn:Hwith];
      cbn [orb negb].
    1, 2: rewrite Hcount;
      destruct (1 <? count (c :: sql) semicolon) eqn:Hc;
      [apply Nat.ltb_lt in Hc | apply Nat.ltb_ge in Hc].
    1, 3: split; [|split];
      [ split; [intros _; right; right; exact Hc | intros _; eexists; reflexivity]
      | intros e [= <-]; eexists; reflexivity
      | intros H; exfalso; apply H; right; right; exact Hc ].
    1, 2: split; [|split];
      [ split; [intros [e He]; discriminate|];
        intros [He|[[H1 H2]|H]]; [| congruence | lia];
        rewrite He in *; discriminate
      | intros e He; discriminate
      | intros _; eexists; reflexivity ].
    split; [|split].
    + split; [intros _; right; left; now split | intros _; eexists; reflexivity].
    + intros e [= <-]. eexists; reflexivity.
    + intros H. exfalso. apply H. right. left. now split.
Qed.

(** C10: [_normalise_query] accepts what it returns and returns it
    unchanged. *)
Theorem normalise_idempotent (sql out : str) :
  _normalise_query sql = Ok out -> _normalise_query out = Ok out.
Proof.
  intros H.
  destruct (accepted_shape H) as [Hs _].
  destruct (accepted_strip_fixed H) as [Hstrip Hne].
  destruct (normalise_ok_inv H) as (_ & Hout & Hcount).
  pose proof (rewritten_clear (strip sql)) as Hclear. cbv zeta in Hclear.
  rewrite <- Hout in Hclear. destruct Hclear as [H1 H2].
  unfold _normalise_query. destruct out as [|c out]; [congruence|].
  rewrite Hstrip.
  replace (startswith (lower (c :: out)) (lit "select")
           || startswith (lower (c :: out)) (lit "with")) with true
    by (symmetry; apply orb_true_iff; exact Hs).
  cbn [negb].
  assert (E1 : replace (c :: out) raw_directors safe_expansion = c :: out)
    by (apply replace_scan_absent; exact H1).
  rewrite E1.
  assert (E2 : replace (c :: out) raw_ifnull_directors safe_expansion = c :: out)
    by (apply replace_scan_absent; exact H2).
  rewrite E2, Hstrip.
  apply Nat.ltb_ge in Hcount. rewrite Hstrip in Hcount. now rewrite Hcount.
Qed.

Lemma normalise_idempotent_witness :
  _normalise_query
    (lit "SELECT value FROM netflix_titles, " ++ safe_expansion ++ lit ";")
  = Ok (lit "SELECT value FROM netflix_titles, " ++ safe_expansion ++ lit ";").
Proof.
  apply (normalise_idempotent
           (lit "  SELECT value FROM netflix_titles, json_each(directors); ")).
  vm_compute. reflexivity.
Defined.

(** C3: the rewriter accepts a text that holds two statements separated
    by one semicolon; the guard only counts more than one. *)
Theorem stacked_statements_accepted :
  let sql := lit "SELECT 1; DROP TABLE netflix_titles" in
  _normalise_query sql = Ok sql
  /\ statements sql = [lit "SELECT 1"; lit " DROP TABLE netflix_titles"]
  /\ count sql semicolon = 1.
Proof. vm_compute. repeat split. Qed.

(** ** The executor *)

Lemma fetchmany_length (cur cur' : cursor) (n : nat) (rows : list row) :
  fetchmany cur n = Ok (rows, cur') -> length rows <= n.
Proof.
  unfold fetchmany. destruct (n <=? length (pending cur)) eqn:Hn.
  - intros [= <- _]. rewrite length_firstn. lia.
  - apply Nat.leb_gt in Hn. destruct (failure cur); [discriminate|].
    intros [= <- _]. lia.
Qed.

(** C5: [execute_query] never returns more than [MAX_ROWS] rows; and when
    the accepted query yields more rows than that, it returns the first
    [MAX_ROWS] of them and logs the truncation warning. *)
Theorem execute_query_bounded (e : env) (sql : str) (w : world) :
  (forall cols rows w',
      execute_query e sql w = (Ok (cols, rows), w') ->
      length rows <= MAX_ROWS)
  /\ (forall safe cur,
         _normalise_query sql = Ok safe ->
         connect e = Ok tt ->
         database e safe = Ok cur ->
         Forall (fun r => r <> []) (pending cur) ->
         MAX_ROWS < length (pending cur) ->
         exists cols w',
           execute_query e sql w
           = (Ok (cols, firstn MAX_ROWS (pending cur)), w')
           /\ length (firstn MAX_ROWS (pending cur)) = MAX_ROWS
           /\ log w' = log w ++ [(INFO, lit "Executing SQL: " ++ safe);
                                 truncation_warning]).
Proof.
  split.
  - intros cols rows w' H.
    unfold execute_query, bind, lift, logger, ret in H.
    destruct (_normalise_query sql) as [safe|]; [|discriminate].
    destruct (connect e) as [[]|]; [|discriminate].
    destruct (database e safe) as [cur|]; [|discriminate].
    destruct (fetchmany cur MAX_ROWS) as [[rows0 cur']|] eqn:Hfm;
      [|discriminate].
    cbv beta iota delta [fst snd] in H.
    destruct (fetchone cur') as [[next cur'']|]; [|discriminate].
    cbv beta iota delta [fst snd] in H.
    destruct (row_truthy next).
    + assert (Hrows : rows = firstn MAX_ROWS rows0) by congruence.
      rewrite Hrows. apply firstn_le_length.
    + assert (Hrows : rows = rows0) by congruence.
      rewrite Hrows. exact (fetchmany_length _ _ _ _ Hfm).
  - intros safe cur Hsafe Hconn Hdb Hrows Hlen.
    unfold execute_query, bind, lift, logger, ret, fetchmany, fetchone.
    rewrite Hsafe, Hconn, Hdb.
    replace (MAX_ROWS <=? length (pending cur)) with true
      by (symmetry; apply Nat.leb_le; lia).
    cbn [fst snd pending].
    destruct (skipn MAX_ROWS (pending cur)) as [|r rest] eqn:Hskip.
    + apply (f_equal (@length row)) in Hskip.
      rewrite length_skipn in Hskip. simpl in Hskip. lia.
    + assert (Hr : r <> []).
      { rewrite <- (firstn_skipn MAX_ROWS (pending cur)), Forall_app, Hskip
          in Hrows.
        destruct Hrows as [_ Hrows]. now inversion Hrows. }
      destruct r as [|v r]; [congruence|]. cbn [fst row_truthy].
      eexists _, _. split; [rewrite firstn_firstn, Nat.min_id; reflexivity|].
      split; [rewrite length_firstn; lia|].
      cbn [log]. rewrite <- app_assoc. reflexivity.
Qed.

Lemma execute_query_bounded_witness :
  let e := sample_env outage outage wide_db (Ok (JObject [])) in
  exists cols w',
    execute_query e (lit "SELECT n FROM t") initial_world
    = (Ok (cols, repeat [SqlInt 1%Z] MAX_ROWS), w')
    /\ In truncation_warning (log w').
Proof.
  intros e.
  destruct (proj2 (execute_query_bounded e (lit "SELECT n FROM t") initial_world)
              (lit "SELECT n FROM t")
              {| description := Some [lit "n"];
                 pending := repeat [SqlInt 1%Z] 500;
                 failure := None |})
    as (cols & w' & Hrun & _ & Hlog).
  - vm_compute. reflexivity.
  - reflexivity.
  - reflexivity.
  - apply Forall_forall. intros r Hr. apply repeat_spec in Hr.
    subst r. discriminate.
  - apply Nat.ltb_lt. vm_compute. reflexivity.
  - exists cols, w'. split; [exact Hrun|].
    rewrite Hlog. apply in_or_app. right. right. left. reflexivity.
Defined.

(** ** The ticket store *)

Lemma count_zero_not_in (s : str) (c a : ascii) :
  count s c = 0 -> In a s -> Ascii.eqb a c = false.
Proof.
  induction s as [|x s IH]; simpl; [tauto|].
  destruct (Ascii.eqb x c) eqn:Hx; [discriminate|].
  intros H [->|Hin]; [exact Hx | now apply IH].
Qed.

Lemma count_repeat (a c : ascii) (n : nat) :
  Ascii.eqb a c = false -> count (repeat a n) c = 0.
Proof.
  intros H. induction n as [|n IH]; simpl; [reflexivity|]. now rewrite H.
Qed.

(** The characters that a rendered number or timestamp can hold. *)
Lemma count_str_of_Z (z : Z) (c : ascii) :
  count (lit "-0123456789") c = 0 -> count (str_of_Z z) c = 0.
Proof.
  intros H.
  assert (Hd : forall a, In a (lit "-0123456789") -> Ascii.eqb a c = false)
    by (intros a; now apply count_zero_not_in).
  assert (Hu : forall u, count (lit (NilEmpty.string_of_uint u)) c = 0).
  { induction u;
      cbn [NilEmpty.string_of_uint lit list_ascii_of_string count];
      [reflexivity|..];
      rewrite Hd by (simpl; tauto); exact IHu. }
  unfold str_of_Z.
  destruct (Z.to_int z);
    cbn [NilEmpty.string_of_int lit list_ascii_of_string count]; [apply Hu|].
  rewrite Hd by (simpl; tauto). apply Hu.
Qed.

Lemma count_zero_padded (w : nat) (z : Z) (c : ascii) :
  count (lit "-0123456789") c = 0 -> count (zero_padded w z) c = 0.
Proof.
  intros H. unfold zero_padded. rewrite count_app, count_str_of_Z by exact H.
  rewrite count_repeat; [reflexivity|].
  apply (count_zero_not_in _ _ _ H). simpl. tauto.
Qed.

Lemma count_isoformat (d : datetime) (c : ascii) :
  count (lit "-0123456789T:.") c = 0 -> count (isoformat d) c = 0.
Proof.
  intros H.
  assert (Hd : count (lit "-0123456789") c = 0).
  { change (lit "-0123456789T:.") with (lit "-0123456789" ++ lit "T:.") in H.
    rewrite count_app in H. lia. }
  assert (Hs : forall a, In a (lit "-T:.") -> count [a] c = 0).
  { intros a Ha. simpl. rewrite (count_zero_not_in _ _ _ H); [reflexivity|].
    simpl in *. tauto. }
  unfold isoformat.
  repeat rewrite count_app. rewrite !count_zero_padded by exact Hd.
  change (lit "-") with ["-"%char]. change (lit "T") with ["T"%char].
  change (lit ":") with [":"%char].
  rewrite !Hs by (simpl; tauto).
  destruct (microsecond d =? 0)%Z; [reflexivity|].
  rewrite count_app, count_zero_padded by exact Hd.
  change (lit ".") with ["."%char]. rewrite Hs by (simpl; tauto). reflexivity.
Qed.

Lemma replace_scan_removes (c : ascii) (new s : str) :
  count new c = 0 -> count (replace_scan s [c] new) c = 0.
Proof.
  intros Hnew.
  apply (replace_scan_ind c [] new (fun _ out => count out c = 0)).
  - reflexivity.
  - intros x t _ IH. rewrite count_app, Hnew. exact IH.
  - intros x t Hmiss IH. simpl in *. rewrite startswith_nil_r, andb_true_r in Hmiss.
    rewrite Ascii.eqb_sym in Hmiss. now rewrite Hmiss.
Qed.

Lemma sanitize_clean (s out : str) :
  sanitize (JString s) = Ok out ->
  count out ","%char = 0 /\ count out nl = 0.
Proof.
  intros [= <-]. unfold replace. change (lit ",") with [","%char]. split.
  - now apply replace_scan_removes.
  - rewrite replace_scan_count by reflexivity. now apply replace_scan_removes.
Qed.

Lemma split_clean (a : str) (sep : ascii) :
  count a sep = 0 -> split a sep = [a].
Proof.
  induction a as [|x a IH]; simpl; [reflexivity|].
  destruct (Ascii.eqb x sep); [discriminate|]. intros H. now rewrite IH.
Qed.

Lemma split_app (a b : str) (sep : ascii) :
  count a sep = 0 -> split (a ++ sep :: b) sep = a :: split b sep.
Proof.
  induction a as [|x a IH]; simpl.
  - now rewrite Ascii.eqb_refl.
  - destruct (Ascii.eqb x sep); [discriminate|]. intros H. now rewrite IH.
Qed.

Lemma valid_priority_clean (p : str) (c : ascii) :
  valid_priority p -> c = ","%char \/ c = nl -> count p c = 0.
Proof.
  intros [->|[->| ->]] [->| ->]; reflexivity.
Qed.

(** What [create_support_ticket] does when title and description are
    strings. *)
Lemma create_support_ticket_strings (e : env) (t d : str) (p : jval) (w : world) :
  let timestamp := isoformat (clock e (ticks w)) in
  let id := lit "T-"
            ++ str_of_Z (int_timestamp (utcoffset e) (clock e (S (ticks w)))) in
  let st := replace (replace t [nl] (lit " ")) (lit ",") (lit " ") in
  let sd := replace (replace d [nl] (lit " ")) (lit ",") (lit " ") in
  create_support_ticket e (JString t) (JString d) p w
  = (Ok {| ticket_id := id; title := JString t; priority := p;
           created_at := timestamp |},
     {| log := log w ++ [(INFO, lit "Created support ticket " ++ id
                                ++ lit " with priority " ++ py_format p)];
        ticket_file := Some (match ticket_file w with
                             | Some text => text
                             | None => ticket_header
                             end ++ ticket_line id st sd p timestamp);
        ticks := S (S (ticks w)) |}).
Proof.
  unfold create_support_ticket, bind, _ensure_ticket_store, utcnow, lift,
    sanitize, append_ticket_line, logger, ret.
  destruct w as [lg [text|] k]; reflexivity.
Qed.

Lemma create_support_ticket_id (e : env) (t d p : jval) (w w' : world) (tk : ticket) :
  create_support_ticket e t d p w = (Ok tk, w') ->
  ticket_id tk
  = lit "T-" ++ str_of_Z (int_timestamp (utcoffset e) (clock e (S (ticks w)))).
Proof.
  destruct t as [t|? ?], d as [d|? ?].
  - rewrite create_support_ticket_strings. intros H.
    pose proof (f_equal (fun r => match fst r with
                                  | Ok k => ticket_id k
                                  | Raise _ => []
                                  end) H) as E.
    cbv beta iota delta [fst] in E. symmetry. exact E.
  - unfold create_support_ticket, bind, _ensure_ticket_store, utcnow, lift,
      sanitize. destruct w as [lg [text|] k]; discriminate.
  - unfold create_support_ticket, bind, _ensure_ticket_store, utcnow, lift,
      sanitize. destruct w as [lg [text|] k]; discriminate.
  - unfold create_support_ticket, bind, _ensure_ticket_store, utcnow, lift,
      sanitize. destruct w as [lg [text|] k]; discriminate.
Qed.

Lemma str_of_Z_inj (a b : Z) : str_of_Z a = str_of_Z b -> a = b.
Proof.
  unfold str_of_Z, lit. intros H.
  apply (f_equal string_of_list_ascii) in H.
  rewrite !string_of_list_ascii_of_string in H.
  apply (f_equal NilEmpty.int_of_string) in H.
  rewrite !NilEmpty.isi in H. injection H as H.
  now apply DecimalZ.to_int_inj.
Qed.

Lemma ticket_id_clean (off : Z -> Z) (d : datetime) (c : ascii) :
  c = ","%char \/ c = nl ->
  count (lit "T-" ++ str_of_Z (int_timestamp off d)) c = 0.
Proof.
  intros [->| ->]; rewrite count_app, count_str_of_Z; reflexivity.
Qed.

Lemma isoformat_clean (d : datetime) (c : ascii) :
  c = ","%char \/ c = nl -> count (isoformat d) c = 0.
Proof.
  intros [->| ->]; apply count_isoformat; reflexivity.
Qed.

(** C8: a carriage return in a title is not replaced: it is written to
    the ticket file as it is.  A reader with universal newlines, as the
    page's own reader of the file is, then sees the record as two lines,
    one of two fields and one of four. *)
Theorem carriage_return_splits_record :
  let e := sample_env outage outage echo_db (Ok (JObject [])) in
  let run := create_support_ticket e (JString (lit "a" ++ [cr] ++ lit "b"))
               (JString (lit "desc")) (JString (lit "low")) initial_world in
  let record := lit "T-1715949007,a" ++ [cr]
                ++ lit "b,desc,low,2024-05-17T12:30:07.250000" ++ [nl] in
  ticket_file (snd run) = Some (ticket_header ++ record)
  /\ split (universal_newlines record) nl
     = [lit "T-1715949007,a"; lit "b,desc,low,2024-05-17T12:30:07.250000"; []]
  /\ map (fun line => length (split line ","%char))
         (split (universal_newlines record) nl)
     = [2; 4; 1].
Proof. vm_compute. repeat split. Qed.

(** *** Whole seconds of a timestamp *)

Section Timestamp.

Local Open Scope Z_scope.

Lemma rne_div_bounds (a b lo hi : Z) :
  0 < b -> lo * b <= a <= hi * b ->
  lo <= Binary64.rne_div a b <= hi.
Proof.
  intros Hb [Hlo Hhi]. unfold Binary64.rne_div.
  pose proof (Z.div_mod a b ltac:(lia)) as Hdm.
  pose proof (Z.mod_pos_bound a b Hb) as Hr.
  set (q := a / b) in *. set (r := a mod b) in *.
  assert (Hq1 : lo <= q) by nia.
  assert (Hq2 : q <= hi) by nia.
  assert (Hq3 : 0 < r -> q + 1 <= hi) by (intros; nia).
  destruct (2 * r <? b) eqn:E1; [lia|].
  apply Z.ltb_ge in E1.
  destruct (b <? 2 * r) eqn:E2; [lia|].
  destruct (Z.even q); lia.
Qed.

Lemma floor_log2_lt (n d K : Z) :
  0 < n -> 0 < d -> 0 <= K -> n < d * 2 ^ K ->
  Binary64.floor_log2 n d < K.
Proof.
  intros Hn Hd HK Hlt. unfold Binary64.floor_log2.
  pose proof (Z.log2_spec n Hn) as [Hn1 Hn2].
  pose proof (Z.log2_spec d Hd) as [Hd1 Hd2].
  pose proof (Z.log2_nonneg n) as Ln. pose proof (Z.log2_nonneg d) as Ld.
  set (k := Z.log2 n - Z.log2 d).
  assert (Hk : k <= K).
  { assert (H : 2 ^ Z.log2 n < 2 ^ (Z.succ (Z.log2 d) + K)).
    { rewrite Z.pow_add_r by lia.
      assert (0 < 2 ^ K) by (apply Z.pow_pos_nonneg; lia). nia. }
    apply Z.pow_lt_mono_r_iff in H; lia. }
  destruct (Z.eq_dec k K) as [E|E].
  - rewrite E. replace (0 <=? K) with true by (symmetry; apply Z.leb_le; lia).
    replace (d * 2 ^ K <=? n) with false by (symmetry; apply Z.leb_gt; lia).
    lia.
  - destruct (if 0 <=? k then d * 2 ^ k <=? n else d <=? n * 2 ^ (- k)); lia.
Qed.

Lemma round_between (n d lo hi : Z) :
  0 < n -> 0 < d -> n < d * 2 ^ 33 ->
  lo * d <= n * 2 ^ 20 <= hi * d ->
  exists m e,
    Binary64.round n d = (m, e) /\ e <= -20
    /\ lo * 2 ^ (- 20 - e) <= m <= hi * 2 ^ (- 20 - e).
Proof.
  intros Hn Hd Hlt Hb. unfold Binary64.round.
  replace (n =? 0) with false by (symmetry; apply Z.eqb_neq; lia).
  rewrite Z.abs_eq, (Z.sgn_pos n) by lia.
  pose proof (floor_log2_lt n d 33 Hn Hd ltac:(lia) Hlt) as Hfl.
  set (e := Z.max (Binary64.floor_log2 n d - 52) (-1074)).
  assert (He : e <= -20) by lia.
  replace (0 <=? e) with false by (symmetry; apply Z.leb_gt; lia).
  exists (1 * Binary64.rne_div (n * 2 ^ (- e)) d), e.
  split; [reflexivity|]. split; [exact He|].
  rewrite Z.mul_1_l.
  assert (HP : 0 < 2 ^ (- 20 - e)) by (apply Z.pow_pos_nonneg; lia).
  assert (Hpow : 2 ^ (- e) = 2 ^ 20 * 2 ^ (- 20 - e))
    by (rewrite <- Z.pow_add_r by lia; f_equal; lia).
  apply rne_div_bounds; [exact Hd|].
  rewrite Hpow. set (P := 2 ^ (- 20 - e)) in *. nia.
Qed.

Lemma trunc_between (m e s : Z) :
  e <= -20 -> 0 <= s ->
  s * 2 ^ 20 * 2 ^ (- 20 - e) <= m <= ((s + 1) * 2 ^ 20 - 1) * 2 ^ (- 20 - e) ->
  Binary64.trunc (m, e) = s.
Proof.
  intros He Hs Hm. unfold Binary64.trunc.
  replace (0 <=? e) with false by (symmetry; apply Z.leb_gt; lia).
  assert (HP : 0 < 2 ^ (- 20 - e)) by (apply Z.pow_pos_nonneg; lia).
  assert (Hpow : 2 ^ (- e) = 2 ^ 20 * 2 ^ (- 20 - e))
    by (rewrite <- Z.pow_add_r by lia; f_equal; lia).
  rewrite Hpow. set (P := 2 ^ (- 20 - e)) in *.
  rewrite Z.quot_div_nonneg by nia.
  symmetry. apply Z.div_unique with (r := m - s * (2 ^ 20 * P)); nia.
Qed.

Lemma int_of_timestamp (s micro : Z) :
  0 <= s < 2 ^ 33 -> 0 <= micro < 1000000 ->
  Binary64.trunc (Binary64.add s (Binary64.div micro 1000000)) = s.
Proof.
  intros Hs Hmicro. unfold Binary64.div.
  destruct (Z.eq_dec micro 0) as [->|Hne].
  - change (Binary64.round 0 1000000) with (0, 0).
    unfold Binary64.add. cbn [Z.leb Z.compare]. 
    replace (s + 0 * 2 ^ 0) with s by lia.
    destruct (Z.eq_dec s 0) as [->|Hs0]; [reflexivity|].
    destruct (round_between s 1 (s * 2 ^ 20) (s * 2 ^ 20))
      as (m & e & -> & He & Hm); try lia.
    assert (HP : 0 < 2 ^ (- 20 - e)) by (apply Z.pow_pos_nonneg; lia).
    apply trunc_between; trivial; lia.
  - destruct (round_between micro 1000000 0 (2 ^ 20 - 1))
      as (m1 & e1 & -> & He1 & Hm1); try lia.
    unfold Binary64.add.
    replace (0 <=? e1) with false by (symmetry; apply Z.leb_gt; lia).
    assert (HP : 0 < 2 ^ (- 20 - e1)) by (apply Z.pow_pos_nonneg; lia).
    assert (Hpow : 2 ^ (- e1) = 2 ^ 20 * 2 ^ (- 20 - e1))
      by (rewrite <- Z.pow_add_r by lia; f_equal; lia).
    set (P := 2 ^ (- 20 - e1)) in *.
    destruct (Z.eq_dec (s * 2 ^ (- e1) + m1) 0) as [E|E].
    + rewrite E. change (Binary64.round 0 (2 ^ (- e1))) with (0, 0).
      cbn. nia.
    + destruct (round_between (s * 2 ^ (- e1) + m1) (2 ^ (- e1))
                  (s * 2 ^ 20) ((s + 1) * 2 ^ 20 - 1))
        as (m & e & -> & He & Hm); try (rewrite Hpow; nia).
      apply trunc_between; trivial; lia.
Qed.

(** In a zone that keeps one offset, [_mktime] subtracts it. *)
Lemma mktime_constant_zone (zone : Z -> Z) (c : Z) (d : datetime) :
  (forall u, zone u = c) -> _mktime zone d = wall_seconds d - c.
Proof.
  intros Hzone. unfold _mktime, local. rewrite !Hzone.
  set (t := wall_seconds d).
  replace (t - (t + c - t) + c =? t) with true
    by (symmetry; apply Z.eqb_eq; lia).
  replace (t + c - t =? t - (t + c - t) - 86400 + c - (t - (t + c - t) - 86400))
    with true by (symmetry; apply Z.eqb_eq; lia).
  cbn [andb]. lia.
Qed.

Lemma int_timestamp_constant_zone (zone : Z -> Z) (c : Z) (d : datetime) :
  (forall u, zone u = c) ->
  0 <= wall_seconds d - c < 2 ^ 33 -> 0 <= microsecond d < 1000000 ->
  int_timestamp zone d = wall_seconds d - c.
Proof.
  intros Hzone Hs Hmicro. unfold int_timestamp, timestamp.
  rewrite (mktime_constant_zone zone c d Hzone).
  now apply int_of_timestamp.
Qed.

(** Outside those conditions whole seconds can coincide: across the start
    of summer time two local readings an hour apart are the same instant,
    and from the year 2515 on a double no longer tells the last
    microsecond of a second from the next second. *)
Lemma int_timestamp_coincides_elsewhere :
  int_timestamp new_york_2024 (at_time 2024 3 10 2 30 0 0) = 1710055800
  /\ int_timestamp new_york_2024 (at_time 2024 3 10 3 30 0 0) = 1710055800
  /\ int_timestamp (fun _ => 0) (at_time 2600 1 1 0 0 0 999999) = 19880899201
  /\ int_timestamp (fun _ => 0) (at_time 2600 1 1 0 0 1 0) = 19880899201.
Proof. vm_compute. repeat split. Qed.

End Timestamp.

(** C7 (as the code has it): the identifier is [T-] followed by
    [int(datetime.utcnow().timestamp())] of the second clock reading of the
    call.  In a process whose zone keeps one offset from UTC, for readings
    between 1970 and 2242, that number is the whole seconds of the reading
    less the offset, so two creations whose readings lie in different
    whole seconds get different identifiers. *)
Theorem ticket_ids_differ_across_seconds
    (e : env) (t1 d1 p1 t2 d2 p2 : jval) (w1 w2 w1' w2' : world)
    (tk1 tk2 : ticket) (c : Z) :
  (forall u, utcoffset e u = c) ->
  create_support_ticket e t1 d1 p1 w1 = (Ok tk1, w1') ->
  create_support_ticket e t2 d2 p2 w2 = (Ok tk2, w2') ->
  let r1 := clock e (S (ticks w1)) in
  let r2 := clock e (S (ticks w2)) in
  (0 <= wall_seconds r1 - c < 2 ^ 33)%Z ->
  (0 <= microsecond r1 < 1000000)%Z ->
  (0 <= wall_seconds r2 - c < 2 ^ 33)%Z ->
  (0 <= microsecond r2 < 1000000)%Z ->
  wall_seconds r1 <> wall_seconds r2 ->
  ticket_id tk1 = lit "T-" ++ str_of_Z (wall_seconds r1 - c)
  /\ ticket_id tk2 = lit "T-" ++ str_of_Z (wall_seconds r2 - c)
  /\ ticket_id tk1 <> ticket_id tk2.
Proof.
  intros Hzone H1 H2 r1 r2 Hs1 Hm1 Hs2 Hm2 Hne.
  rewrite (create_support_ticket_id _ _ _ _ _ _ _ H1).
  rewrite (create_support_ticket_id _ _ _ _ _ _ _ H2).
  fold r1 r2.
  rewrite (int_timestamp_constant_zone _ c r1 Hzone Hs1 Hm1).
  rewrite (int_timestamp_constant_zone _ c r2 Hzone Hs2 Hm2).
  split; [reflexivity|]. split; [reflexivity|].
  intros Heq. apply app_inv_head, str_of_Z_inj in Heq. lia.
Qed.

Lemma ticket_ids_differ_across_seconds_witness :
  let e := with_clock stepping_clock
             (sample_env outage outage echo_db (Ok (JObject []))) in
  exists tk1 w1 tk2 w2,
    create_support_ticket e (JString (lit "a")) (JString (lit "b"))
      (JString (lit "low")) initial_world = (Ok tk1, w1)
    /\ create_support_ticket e (JString (lit "a")) (JString (lit "b"))
         (JString (lit "low")) w1 = (Ok tk2, w2)
    /\ ticket_id tk1 = lit "T-1715949001"
    /\ ticket_id tk2 = lit "T-1715949003"
    /\ ticket_id tk1 <> ticket_id tk2.
Proof.
  intros e.
  pose proof (create_support_ticket_strings e (lit "a") (lit "b")
                (JString (lit "low")) initial_world) as H1.
  cbv zeta in H1.
  lazymatch type of H1 with
  | _ = (Ok ?tk1, ?w1) =>
      pose proof (create_support_ticket_strings e (lit "a") (lit "b")
                    (JString (lit "low")) w1) as H2;
      cbv zeta in H2;
      lazymatch type of H2 with
      | _ = (Ok ?tk2, ?w2) => exists tk1, w1, tk2, w2
      end
  end.
  split; [exact H1|]. split; [exact H2|].
  refine (ticket_ids_differ_across_seconds e _ _ _ _ _ _ _ _ _ _ _ _ 0%Z
            (fun _ => eq_refl) H1 H2 _ _ _ _ _);
    try (split; [apply Z.leb_le | apply Z.ltb_lt]; vm_compute; reflexivity).
  vm_compute. discriminate.
Defined.

(** C7 (as stated) fails: two creations, one after the other, with all
    clock readings distinct but within one second, get the same
    identifier. *)
Lemma distinct_instants_same_ticket_id :
  let e := sample_env outage outage echo_db (Ok (JObject [])) in
  let create := create_support_ticket e (JString (lit "a")) (JString (lit "b"))
                  (JString (lit "low")) in
  (forall i k, i <> k -> clock e i <> clock e k)
  /\ exists tk1 tk2,
       fst (create initial_world) = Ok tk1
       /\ fst (create (snd (create initial_world))) = Ok tk2
       /\ ticket_id tk1 = ticket_id tk2.
Proof.
  intros e create. split.
  - intros i k Hne Heq. apply (f_equal microsecond) in Heq.
    subst e. cbv [sample_env sample_clock clock microsecond] in Heq. lia.
  - subst create.
    pose proof (create_support_ticket_strings e (lit "a") (lit "b")
                  (JString (lit "low")) initial_world) as H1.
    cbv zeta in H1. rewrite H1. cbn [fst snd].
    lazymatch goal with
    | |- context [create_support_ticket _ _ _ _ ?w1] =>
        pose proof (create_support_ticket_strings e (lit "a") (lit "b")
                      (JString (lit "low")) w1) as H2
    end.
    cbv zeta in H2. rewrite H2. cbn [fst].
    eexists _, _. split; [reflexivity|]. split; [reflexivity|].
    cbn [ticket_id]. apply f_equal. vm_compute. reflexivity.
Qed.

(** ** The dispatcher *)

(** C1: the model asks for a query that the rewriter changes; the engine
    is handed the rewritten text, while the result carries under [query]
    the text the model sent. *)
Theorem returned_query_is_not_the_executed_one :
  let e := sample_env (tool_call (lit "ask_database") (lit "{}"))
             (answer (lit "Here are the directors.")) echo_db
             (Ok (JObject [(lit "query", JString directors_query)])) in
  let run := run_agent e (lit "List the top 10 most common directors")
               initial_world in
  fst run
  = Ok [("text"%string, PStr (lit "Here are the directors."));
        ("columns"%string, PColumns [lit "sql"]);
        ("rows"%string, PRows [[SqlText directors_query_executed]]);
        ("query"%string, PStr directors_query)]
  /\ has_entry (log (snd run))
       (INFO, lit "Executing SQL: " ++ directors_query_executed) = true
  /\ str_eqb directors_query directors_query_executed = false.
Proof. vm_compute. repeat split. Qed.

Lemma str_eqb_refl (a : str) : str_eqb a a = true.
Proof.
  induction a as [|x a IH]; simpl; [reflexivity|].
  now rewrite Ascii.eqb_refl.
Qed.

(** A model call only writes to the log. *)
Lemma follow_up_text_frame (e : env) (messages : list chat_message) (w : world) :
  ticket_file (snd (follow_up_text e messages w)) = ticket_file w
  /\ ticks (snd (follow_up_text e messages w)) = ticks w.
Proof.
  unfold follow_up_text, chat_completion_request, bind, logger, lift.
  destruct (provider e messages None) as [c|err]; [|split; reflexivity].
  destruct (final_text_of c); split; reflexivity.
Qed.

Lemma follow_up_text_outage (e : env) (messages : list chat_message)
    (w : world) (err : exn) :
  provider e messages None = Raise err ->
  fst (follow_up_text e messages w) = Raise err.
Proof.
  intros H.
  unfold follow_up_text, chat_completion_request, bind, logger, lift.
  now rewrite H.
Qed.

(** How [run_agent] reaches the branch of a tool call. *)
Lemma run_agent_tool_call (e : env) (question : str) (w : world)
    (first : choice) (fc : function_call) (name : str) :
  (exists k ks, OPENAI_API_KEY e = Some (k :: ks)) ->
  provider e [SystemMessage SYSTEM_PROMPT; UserMessage question] (Some FUNCTIONS)
  = Ok first ->
  finish_reason first = Some (lit "function_call") ->
  msg_function_call (message first) = Some fc ->
  fc_name fc = Some name ->
  exists w1,
    ticket_file w1 = ticket_file w /\ ticks w1 = ticks w
    /\ run_agent e question w
       = (if str_eqb name (lit "ask_database")
          then ask_database_branch e
                 [SystemMessage SYSTEM_PROMPT; UserMessage question] (message first)
          else if str_eqb name (lit "create_support_ticket")
          then create_support_ticket_branch e
                 [SystemMessage SYSTEM_PROMPT; UserMessage question] (message first)
          else ret [("error"%string,
                     PStr (lit "Unknown function requested: " ++ name))]) w1.
Proof.
  intros (k & ks & Hkey) Hfirst Hfin Hfc Hname.
  unfold run_agent. rewrite Hkey.
  unfold chat_completion_request, try_else, bind, logger, lift.
  rewrite Hfirst. cbv beta iota zeta. rewrite Hfin.
  cbv beta iota delta [is_name].
  rewrite str_eqb_refl. cbv beta iota delta [negb].
  rewrite Hfc, Hname.
  eexists. split; [|split; [|reflexivity]]; reflexivity.
Qed.

(** The query branch when only the follow-up call fails. *)
Lemma ask_database_branch_outage (e : env) (messages : list chat_message)
    (assistant : assistant_message) (w : world) (arguments : parsed)
    (query : jval) (cols : list str) (rows : list row) (payload : str)
    (err : exn) :
  loads_arguments e (msg_function_call assistant) = Ok arguments ->
  subscript arguments (lit "query") = Ok query ->
  (forall w0, fst (execute_query_value e query w0) = Ok (cols, rows)) ->
  json_dumps_rows e cols rows = Ok payload ->
  (forall m, provider e m None = Raise err) ->
  exists w',
    ask_database_branch e messages assistant w
    = (Ok [("error"%string, PStr (follow_up_error err));
           ("columns"%string, PColumns cols);
           ("rows"%string, PRows rows)], w').
Proof.
  intros Hargs Hsub Hexec Hdumps Hout.
  unfold ask_database_branch, try_else, bind, lift, ret.
  rewrite Hargs, Hsub.
  specialize (Hexec w).
  destruct (execute_query_value e query w) as [r w2].
  cbn [fst] in Hexec. subst r. cbn [fst snd]. rewrite Hdumps. cbn [fst snd].
  match goal with
  | |- context [follow_up_text e ?m ?w0] =>
      pose proof (follow_up_text_outage e m w0 err (Hout m)) as Hf;
      destruct (follow_up_text e m w0) as [r w3]
  end.
  cbn [fst] in Hf. subst r. exists w3. destruct err; reflexivity.
Qed.

(** The ticket branch, whatever the follow-up call does. *)
Lemma create_support_ticket_branch_run (e : env) (messages : list chat_message)
    (assistant : assistant_message) (w : world) (arguments : parsed)
    (t d : str) (p : jval) :
  loads_arguments e (msg_function_call assistant) = Ok arguments ->
  dict_get arguments (lit "title") (JString (lit "Untitled issue")) = Ok (JString t) ->
  dict_get arguments (lit "description") (JString []) = Ok (JString d) ->
  dict_get arguments (lit "priority") (JString (lit "medium")) = Ok p ->
  let tk := {| ticket_id := lit "T-" ++ str_of_Z (int_timestamp (utcoffset e)
                                               (clock e (S (ticks w))));
               title := JString t;
               priority := p;
               created_at := isoformat (clock e (ticks w)) |} in
  exists w' text,
    create_support_ticket_branch e messages assistant w
    = (Ok [("text"%string, PStr text); ("ticket"%string, PTicket tk)], w')
    /\ ticket_file w'
       = Some (match ticket_file w with
               | Some old => old
               | None => ticket_header
               end
               ++ ticket_line (ticket_id tk)
                    (replace (replace t [nl] (lit " ")) (lit ",") (lit " "))
                    (replace (replace d [nl] (lit " ")) (lit ",") (lit " "))
                    p (created_at tk))
    /\ (forall err, (forall m, provider e m None = Raise err) ->
                    text = follow_up_fallback tk err).
Proof.
  intros Hargs Ht Hd Hp tk.
  unfold create_support_ticket_branch, try_else, bind, lift, try.
  rewrite Hargs, Ht, Hd, Hp.
  pose proof (create_support_ticket_strings e t d p w) as Hrun.
  cbv zeta in Hrun. rewrite Hrun. fold tk.
  match goal with
  | |- context [follow_up_text e ?m ?w0] =>
      pose proof (follow_up_text_frame e m w0) as [Hfile _];
      pose proof (follow_up_text_outage e m w0) as Hout;
      destruct (follow_up_text e m w0) as [[text|err] w3]
  end; cbn [fst snd ticket_file] in *.
  - eexists _, text. split; [reflexivity|]. split; [exact Hfile|].
    intros err Herr. specialize (Hout err (Herr _)). discriminate.
  - eexists _, (follow_up_fallback tk err). split; [reflexivity|].
    split; [exact Hfile|].
    intros err' Herr. specialize (Hout err' (Herr _)). congruence.
Qed.

(** C6: when the tool step succeeds and the follow-up model call fails,
    [run_agent] still returns what the tool produced: in the query case the
    columns and rows next to an error message; in the ticket case the
    ticket next to the templated confirmation, and the line of the ticket
    stays in the ticket file. *)
Theorem follow_up_failure_keeps_tool_result
    (e : env) (question : str) (w : world) (first : choice)
    (fc : function_call) (arguments : parsed) (err : exn) :
  (exists k ks, OPENAI_API_KEY e = Some (k :: ks)) ->
  provider e [SystemMessage SYSTEM_PROMPT; UserMessage question] (Some FUNCTIONS)
  = Ok first ->
  finish_reason first = Some (lit "function_call") ->
  msg_function_call (message first) = Some fc ->
  loads_arguments e (Some fc) = Ok arguments ->
  (forall m, provider e m None = Raise err) ->
  (fc_name fc = Some (lit "ask_database") ->
   forall query cols rows payload,
     subscript arguments (lit "query") = Ok query ->
     (forall w0, fst (execute_query_value e query w0) = Ok (cols, rows)) ->
     json_dumps_rows e cols rows = Ok payload ->
     exists w',
       run_agent e question w
       = (Ok [("error"%string, PStr (follow_up_error err));
              ("columns"%string, PColumns cols);
              ("rows"%string, PRows rows)], w'))
  /\ (fc_name fc = Some (lit "create_support_ticket") ->
      forall t d p,
        dict_get arguments (lit "title") (JString (lit "Untitled issue"))
        = Ok (JString t) ->
        dict_get arguments (lit "description") (JString []) = Ok (JString d) ->
        dict_get arguments (lit "priority") (JString (lit "medium")) = Ok p ->
        exists w' tk,
          run_agent e question w
          = (Ok [("text"%string, PStr (follow_up_fallback tk err));
                 ("ticket"%string, PTicket tk)], w')
          /\ title tk = JString t /\ priority tk = p
          /\ ticket_file w'
             = Some (match ticket_file w with
                     | Some old => old
                     | None => ticket_header
                     end
                     ++ ticket_line (ticket_id tk)
                          (replace (replace t [nl] (lit " ")) (lit ",") (lit " "))
                          (replace (replace d [nl] (lit " ")) (lit ",") (lit " "))
                          p (created_at tk))).
Proof.
  intros Hkey Hfirst Hfin Hfc Hargs Hout. split.
  - intros Hname query cols rows payload Hsub Hexec Hdumps.
    destruct (run_agent_tool_call e question w first fc _
                Hkey Hfirst Hfin Hfc Hname) as (w1 & _ & _ & ->).
    rewrite str_eqb_refl.
    apply ask_database_branch_outage with arguments query payload; trivial.
    now rewrite Hfc.
  - intros Hname t d p Ht Hd Hp.
    destruct (run_agent_tool_call e question w first fc _
                Hkey Hfirst Hfin Hfc Hname) as (w1 & Hfile & Hticks & ->).
    change (str_eqb (lit "create_support_ticket") (lit "ask_database"))
      with false.
    rewrite str_eqb_refl. cbv beta iota.
    rewrite <- Hfc in Hargs.
    destruct (create_support_ticket_branch_run e
                [SystemMessage SYSTEM_PROMPT; UserMessage question]
                (message first) w1 arguments t d p Hargs Ht Hd Hp)
      as (w' & text & Hrun & Hstore & Htext).
    rewrite (Htext err Hout) in Hrun. rewrite Hticks, Hfile in *.
    eexists w', _. split; [exact Hrun|].
    split; [reflexivity|]. split; [reflexivity|]. exact Hstore.
Qed.

Lemma follow_up_failure_keeps_tool_result_witness :
  (exists w',
      run_agent select_one_env (lit "How many titles?") initial_world
      = (Ok [("error"%string,
              PStr (lit "OpenAI follow-up failed: connection refused"));
             ("columns"%string, PColumns [lit "sql"]);
             ("rows"%string, PRows [[SqlText (lit "SELECT 1")]])], w'))
  /\ (exists w' tk,
         run_agent release_year_env (lit "The release year for show X is wrong")
           initial_world
         = (Ok [("text"%string,
                 PStr (follow_up_fallback tk
                         (RequestException (lit "connection refused"))));
                ("ticket"%string, PTicket tk)], w')
         /\ title tk = JString (lit "Wrong release year")
         /\ priority tk = JString (lit "medium")
         /\ ticket_file w'
            = Some (ticket_header
                    ++ ticket_line (ticket_id tk) (lit "Wrong release year")
                         (lit "The release year for show X is wrong")
                         (JString (lit "medium")) (created_at tk))).
Proof.
  split.
  - apply (proj1 (follow_up_failure_keeps_tool_result select_one_env
                    (lit "How many titles?") initial_world
                    (sample_choice (lit "ask_database"))
                    (sample_call (lit "ask_database"))
                    (JObject [(lit "query", JString (lit "SELECT 1"))])
                    (RequestException (lit "connection refused"))
                    (ex_intro _ _ (ex_intro _ _ eq_refl))
                    eq_refl eq_refl eq_refl eq_refl (fun _ => eq_refl))
             eq_refl (JString (lit "SELECT 1")) [lit "sql"]
             [[SqlText (lit "SELECT 1")]] (lit "{}") eq_refl).
    + intros w0. vm_compute. reflexivity.
    + reflexivity.
  - apply (proj2 (follow_up_failure_keeps_tool_result release_year_env
                    (lit "The release year for show X is wrong") initial_world
                    (sample_choice (lit "create_support_ticket"))
                    (sample_call (lit "create_support_ticket"))
                    (JObject [(lit "title", JString (lit "Wrong release year"));
                              (lit "description",
                               JString (lit "The release year for show X is wrong"))])
                    (RequestException (lit "connection refused"))
                    (ex_intro _ _ (ex_intro _ _ eq_refl))
                    eq_refl eq_refl eq_refl eq_refl (fun _ => eq_refl))
             eq_refl (lit "Wrong release year")
             (lit "The release year for show X is wrong")
             (JString (lit "medium")) eq_refl eq_refl eq_refl).
Defined.

(** C9 (as the code has it): when the model selects the ticket tool,
    [run_agent] creates the ticket with priority [medium] if the arguments
    hold no priority, and otherwise with the value they hold, whatever it
    is; that priority is returned in the ticket and written to the ticket
    file. *)
Theorem ticket_priority_defaults_when_omitted
    (e : env) (question : str) (w : world) (first : choice)
    (fc : function_call) (fields : list (str * jval)) (t d : str) :
  (exists k ks, OPENAI_API_KEY e = Some (k :: ks)) ->
  provider e [SystemMessage SYSTEM_PROMPT; UserMessage question] (Some FUNCTIONS)
  = Ok first ->
  finish_reason first = Some (lit "function_call") ->
  msg_function_call (message first) = Some fc ->
  fc_name fc = Some (lit "create_support_ticket") ->
  loads_arguments e (Some fc) = Ok (JObject fields) ->
  dict_get (JObject fields) (lit "title") (JString (lit "Untitled issue"))
  = Ok (JString t) ->
  dict_get (JObject fields) (lit "description") (JString []) = Ok (JString d) ->
  let p := match dict_lookup fields (lit "priority") with
           | Some v => v
           | None => JString (lit "medium")
           end in
  exists w' tk text,
    run_agent e question w
    = (Ok [("text"%string, PStr text); ("ticket"%string, PTicket tk)], w')
    /\ priority tk = p
    /\ ticket_file w'
       = Some (match ticket_file w with
               | Some old => old
               | None => ticket_header
               end
               ++ ticket_line (ticket_id tk)
                    (replace (replace t [nl] (lit " ")) (lit ",") (lit " "))
                    (replace (replace d [nl] (lit " ")) (lit ",") (lit " "))
                    p (created_at tk)).
Proof.
  intros Hkey Hfirst Hfin Hfc Hname Hargs Ht Hd p.
  destruct (run_agent_tool_call e question w first fc _
              Hkey Hfirst Hfin Hfc Hname) as (w1 & Hfile & Hticks & ->).
  change (str_eqb (lit "create_support_ticket") (lit "ask_database"))
    with false.
  rewrite str_eqb_refl. cbv beta iota.
  rewrite <- Hfc in Hargs.
  assert (Hp : dict_get (JObject fields) (lit "priority") (JString (lit "medium"))
               = Ok p).
  { unfold dict_get, p. now destruct (dict_lookup fields (lit "priority")). }
  destruct (create_support_ticket_branch_run e
              [SystemMessage SYSTEM_PROMPT; UserMessage question]
              (message first) w1 (JObject fields) t d p Hargs Ht Hd Hp)
    as (w' & text & Hrun & Hstore & _).
  rewrite Hticks, Hfile in *.
  eexists w', _, text. split; [exact Hrun|]. split; [reflexivity|exact Hstore].
Qed.

Lemma ticket_priority_defaults_when_omitted_witness :
  exists w' tk text,
    run_agent release_year_env (lit "The release year for show X is wrong")
      initial_world
    = (Ok [("text"%string, PStr text); ("ticket"%string, PTicket tk)], w')
    /\ priority tk = JString (lit "medium")
    /\ ticket_file w'
       = Some (ticket_header
               ++ ticket_line (ticket_id tk) (lit "Wrong release year")
                    (lit "The release year for show X is wrong")
                    (JString (lit "medium")) (created_at tk)).
Proof.
  apply (ticket_priority_defaults_when_omitted release_year_env
           (lit "The release year for show X is wrong") initial_world
           (sample_choice (lit "create_support_ticket"))
           (sample_call (lit "create_support_ticket"))
           [(lit "title", JString (lit "Wrong release year"));
            (lit "description",
             JString (lit "The release year for show X is wrong"))]
           (lit "Wrong release year")
           (lit "The release year for show X is wrong")
           (ex_intro _ _ (ex_intro _ _ eq_refl))
           eq_refl eq_refl eq_refl eq_refl eq_refl eq_refl eq_refl).
Defined.

(** C9 (as stated) fails: a priority outside low, medium and high that the
    model supplies is handed to the ticket store and written to the file. *)
Lemma invalid_priority_is_persisted :
  let run := run_agent urgent_env (lit "Please file this as urgent")
               initial_world in
  ~ valid_priority (lit "urgent")
  /\ fst run
     = Ok [("text"%string, PStr (lit "Ticket filed."));
           ("ticket"%string,
            PTicket {| ticket_id := lit "T-1715949007";
                       title := JString (lit "Bad data");
                       priority := JString (lit "urgent");
                       created_at := lit "2024-05-17T12:30:07.250000" |})]
  /\ ticket_file (snd run)
     = Some (ticket_header
             ++ lit "T-1715949007,Bad data,Director field garbled,urgent,2024-05-17T12:30:07.250000"
             ++ [nl]).
Proof.
  split.
  - intros [H|[H|H]]; discriminate.
  - vm_compute. split; reflexivity.
Qed.

(** * Further properties of the code *)

(** ** The rewriter *)

Lemma lstrip_head (s : str) :
  lstrip s = [] \/ exists c t, lstrip s = c :: t /\ isspace c = false.
Proof.
  induction s as [|x s IH]; [now left|]. simpl.
  destruct (isspace x) eqn:Hx; [exact IH|].
  right. now exists x, s.
Qed.

Lemma strip_idem (s : str) : strip (strip s) = strip s.
Proof.
  unfold strip at 1.
  assert (H : lstrip (strip s) = strip s).
  { unfold strip. destruct (lstrip_head s) as [->|(c & t & -> & Hc)];
      [reflexivity|].
    cbn [rstrip]. destruct (rstrip t); rewrite ?Hc; cbn [lstrip];
      now rewrite Hc. }
  rewrite H. unfold strip. apply rstrip_idem.
Qed.

Lemma rewritten_count (s : str) :
  count (replace (replace s raw_directors safe_expansion)
                 raw_ifnull_directors safe_expansion) semicolon
  = count s semicolon.
Proof.
  change raw_directors with ("j"%char :: lit "son_each(directors)").
  change raw_ifnull_directors
    with ("j"%char :: lit "son_each(IFNULL(directors, ''))").
  unfold replace. rewrite !replace_scan_count; reflexivity.
Qed.

(** X1: the text [_normalise_query] returns is not empty and has no white
    space at either end. *)
Theorem normalise_output_is_trimmed (sql out : str) :
  _normalise_query sql = Ok out ->
  out <> [] /\ strip out = out /\ lstrip out = out /\ rstrip out = out.
Proof.
  intros H. destruct (accepted_strip_fixed H) as [Hs Hne].
  destruct (accepted_shape H) as [_ Hr].
  repeat split; trivial.
  unfold strip in Hs. rewrite <- Hs at 2.
  destruct out as [|c out]; [congruence|]. cbn [lstrip] in *.
  destruct (isspace c) eqn:Hc; [|now rewrite Hs].
  exfalso. destruct (lstrip_head out) as [E|(x & t & E & Hx)];
    rewrite E in Hs.
  - discriminate.
  - cbn [rstrip] in Hs.
    destruct (rstrip t); rewrite ?Hx in Hs; injection Hs as -> _; congruence.
Qed.

Lemma normalise_output_is_trimmed_witness :
  let out := lit "WITH t AS (SELECT 1) SELECT * FROM t" in
  out <> [] /\ strip out = out /\ lstrip out = out /\ rstrip out = out.
Proof.
  intros out.
  apply (normalise_output_is_trimmed
           ([nl] ++ lit "  WITH t AS (SELECT 1) SELECT * FROM t " ++ [nl]) out).
  vm_compute. reflexivity.
Defined.

(** X2: the returned text holds exactly as many semicolons as the input,
    and at most one. *)
Theorem normalise_output_semicolons (sql out : str) :
  _normalise_query sql = Ok out ->
  count out semicolon = count sql semicolon /\ count out semicolon <= 1.
Proof.
  intros H. destruct (accepted_strip_fixed H) as [Hs _].
  destruct (normalise_ok_inv H) as (_ & Hout & Hc).
  rewrite Hs in Hc. split; [|exact Hc].
  rewrite Hout, rewritten_count. now apply count_strip.
Qed.

Lemma normalise_output_semicolons_witness :
  let out := lit "SELECT 1; DROP TABLE netflix_titles" in
  count out semicolon = 1 /\ count out semicolon <= 1.
Proof.
  intros out.
  apply (normalise_output_semicolons
           (lit " SELECT 1; DROP TABLE netflix_titles") out).
  vm_compute. reflexivity.
Defined.

(** X3: an accepted text that holds neither raw pattern is returned as it
    is, apart from the white space trimmed at its ends. *)
Theorem normalise_without_pattern_only_trims (sql out : str) :
  _normalise_query sql = Ok out ->
  ~ (exists pre suf, strip sql = pre ++ raw_directors ++ suf) ->
  ~ (exists pre suf, strip sql = pre ++ raw_ifnull_directors ++ suf) ->
  out = strip sql.
Proof.
  intros H H1 H2. destruct (normalise_ok_inv H) as (_ & -> & _).
  assert (C1 : contains (strip sql) raw_directors = false).
  { destruct (contains (strip sql) raw_directors) eqn:E; [|reflexivity].
    apply contains_true_iff in E. contradiction. }
  assert (C2 : contains (strip sql) raw_ifnull_directors = false).
  { destruct (contains (strip sql) raw_ifnull_directors) eqn:E; [|reflexivity].
    apply contains_true_iff in E. contradiction. }
  assert (E1 : replace (strip sql) raw_directors safe_expansion = strip sql)
    by (apply replace_scan_absent; exact C1).
  rewrite E1. apply replace_scan_absent. exact C2.
Qed.

Lemma normalise_without_pattern_only_trims_witness :
  lit "select title from netflix_titles where rating = 'PG'"
  = strip (lit "  select title from netflix_titles where rating = 'PG' ").
Proof.
  apply (normalise_without_pattern_only_trims
           (lit "  select title from netflix_titles where rating = 'PG' ")
           (lit "select title from netflix_titles where rating = 'PG'")).
  - vm_compute. reflexivity.
  - intros Hocc. apply contains_true_iff in Hocc. vm_compute in Hocc.
    discriminate.
  - intros Hocc. apply contains_true_iff in Hocc. vm_compute in Hocc.
    discriminate.
Defined.

(** X4: white space around the input does not matter: if the input is not
    blank, it is treated exactly as its trimmed text. *)
Theorem normalise_ignores_outer_space (sql : str) :
  strip sql <> [] -> _normalise_query sql = _normalise_query (strip sql).
Proof.
  intros Hne. unfold _normalise_query.
  destruct sql as [|c sql]; [now destruct Hne|].
  destruct (strip (c :: sql)) as [|x r] eqn:E; [congruence|].
  rewrite <- E, strip_idem. reflexivity.
Qed.

Lemma normalise_ignores_outer_space_witness :
  _normalise_query (lit "  select 1 ; ")
  = _normalise_query (strip (lit "  select 1 ; ")).
Proof.
  apply (normalise_ignores_outer_space (lit "  select 1 ; ")).
  vm_compute. discriminate.
Defined.

(** X5: which message a refusal carries.  The empty text is refused as
    empty; a text that is not empty, blank ones included, is refused for its
    first word when the trimmed, lower-cased text starts with neither
    [select] nor [with]; with a good first word it is refused for its
    semicolons when it holds more than one. *)
Theorem normalise_refusal_messages (sql : str) :
  (sql = [] ->
   _normalise_query sql = Raise (ValueError (lit "Empty SQL query.")))
  /\ (sql <> [] ->
      startswith (lower (strip sql)) (lit "select") = false ->
      startswith (lower (strip sql)) (lit "with") = false ->
      _normalise_query sql
      = Raise (ValueError
          (lit "Only SELECT statements (optionally starting with WITH) are allowed.")))
  /\ (startswith (lower (strip sql)) (lit "select") = true
      \/ startswith (lower (strip sql)) (lit "with") = true ->
      1 < count sql semicolon ->
      _normalise_query sql
      = Raise (ValueError (lit "Multiple statements are not allowed."))).
Proof.
  split; [intros ->; reflexivity|]. split.
  - intros Hne Hs Hw. unfold _normalise_query.
    destruct sql as [|c sql]; [congruence|]. now rewrite Hs, Hw.
  - intros Hs Hc. unfold _normalise_query.
    destruct sql as [|c sql]; [destruct Hs; discriminate|].
    replace (startswith (lower (strip (c :: sql))) (lit "select")
             || startswith (lower (strip (c :: sql))) (lit "with")) with true
      by (symmetry; apply orb_true_iff; exact Hs).
    cbn [negb]. rewrite count_strip, rewritten_count, count_strip by reflexivity.
    apply Nat.ltb_lt in Hc. now rewrite Hc.
Qed.

Lemma startswith_app_self (p x : str) : startswith (p ++ x) p = true.
Proof.
  induction p as [|a p IH]; [apply startswith_nil_r|].
  simpl. now rewrite Ascii.eqb_refl.
Qed.

Lemma contains_cons (c : ascii) (y p : str) :
  contains y p = true -> contains (c :: y) p = true.
Proof. intros H. simpl. rewrite H. apply orb_true_r. Qed.

Lemma contains_app_r (a y p : str) :
  contains y p = true -> contains (a ++ y) p = true.
Proof.
  intros H. induction a as [|c a IH]; [exact H|].
  rewrite <- app_comm_cons. now apply contains_cons.
Qed.

Lemma contains_head (s p : str) :
  startswith s p = true -> contains s p = true.
Proof. intros H. destruct s; simpl in *; now rewrite H. Qed.

(** Where the scan finds its pattern it leaves the replacement. *)
Lemma replace_scan_inserts (o : ascii) (old new s : str) :
  contains s (o :: old) = true ->
  contains (replace_scan s (o :: old) new) new = true.
Proof.
  apply (replace_scan_ind o old new
           (fun s out => contains s (o :: old) = true ->
                         contains out new = true)).
  - discriminate.
  - intros c t _ _ _. apply contains_head, startswith_app_self.
  - intros c t Hmiss IH H. apply contains_cons, IH.
    cbn [contains] in H. rewrite Hmiss in H. exact H.
Qed.

(** The scan keeps the occurrences of another text that starts with the
    same character, when that character occurs nowhere else in the two
    and they differ somewhere. *)
Lemma replace_scan_keeps (j : ascii) (old new p s : str) :
  count old j = 0 -> count p j = 0 -> differ p old = true ->
  contains s (j :: p) = true ->
  contains (replace_scan s (j :: old) (j :: new)) (j :: p) = true.
Proof.
  intros Hold Hp Hdiff.
  apply (replace_scan_ind j old (j :: new)
           (fun s out => contains s (j :: p) = true ->
                         contains out (j :: p) = true)).
  - discriminate.
  - intros c t Hhit IH H. apply contains_app_r, IH.
    pose proof Hhit as Ht. rewrite startswith_cons in Ht.
    apply andb_true_iff in Ht as [_ Ht]. apply startswith_split in Ht.
    cbn [contains] in H. rewrite startswith_cons in H.
    rewrite Ht in H at 1 2.
    rewrite (differ_startswith _ _ _ Hdiff), andb_false_r in H.
    cbn [orb] in H. now rewrite contains_behind_fresh in H.
  - intros c t _ IH H. cbn [contains] in H.
    apply orb_true_iff in H as [H|H].
    + apply contains_head. rewrite startswith_cons in *.
      now rewrite startswith_replace_scan_fresh.
    + now apply contains_cons, IH.
Qed.

(** X6: when the trimmed input holds one of the two raw patterns, the text
    returned holds the safe expansion. *)
Theorem normalise_inserts_safe_expansion (sql out : str) :
  _normalise_query sql = Ok out ->
  (exists pre suf, strip sql = pre ++ raw_directors ++ suf)
  \/ (exists pre suf, strip sql = pre ++ raw_ifnull_directors ++ suf) ->
  exists pre suf, out = pre ++ safe_expansion ++ suf.
Proof.
  intros H Hocc. destruct (normalise_ok_inv H) as (_ & -> & _).
  apply contains_true_iff.
  assert (Hocc' : contains (strip sql) raw_directors = true
                  \/ contains (strip sql) raw_ifnull_directors = true)
    by (destruct Hocc as [Ho|Ho]; [left|right]; now apply contains_true_iff).
  clear Hocc. revert Hocc'.
  change raw_directors with ("j"%char :: lit "son_each(directors)").
  change raw_ifnull_directors
    with ("j"%char :: lit "son_each(IFNULL(directors, ''))").
  change safe_expansion
    with ("j"%char :: lit "son_each(" ++ replacement ++ lit ")").
  unfold replace. intros [Ho|Ho].
  - apply replace_scan_keeps; try reflexivity.
    now apply (replace_scan_inserts "j"%char).
  - apply (replace_scan_inserts "j"%char).
    apply replace_scan_keeps; try reflexivity. exact Ho.
Qed.

Lemma normalise_inserts_safe_expansion_witness :
  exists pre suf,
    lit "select value from netflix_titles, " ++ safe_expansion
    = pre ++ safe_expansion ++ suf.
Proof.
  apply (normalise_inserts_safe_expansion
           (lit "select value from netflix_titles, json_each(IFNULL(directors, ''))")
           (lit "select value from netflix_titles, " ++ safe_expansion)).
  - vm_compute. reflexivity.
  - right. exists (lit "select value from netflix_titles, "), [].
    vm_compute. reflexivity.
Defined.

(** ** The executor *)

Lemma execute_query_small
    (e : env) (sql safe : str) (cur : cursor) (w : world) :
  _normalise_query sql = Ok safe ->
  connect e = Ok tt ->
  database e safe = Ok cur ->
  length (pending cur) <= MAX_ROWS ->
  match failure cur with
  | None =>
      execute_query e sql w
      = (Ok (match description cur with
             | Some (d :: ds) => d :: ds
             | _ => []
             end, pending cur),
         {| log := log w ++ [(INFO, lit "Executing SQL: " ++ safe)];
            ticket_file := ticket_file w;
            ticks := ticks w |})
  | Some err => fst (execute_query e sql w) = Raise err
  end.
Proof.
  intros Hsafe Hconn Hdb Hlen.
  unfold execute_query, bind, lift, logger, ret, fetchmany, fetchone.
  rewrite Hsafe, Hconn, Hdb.
  destruct (MAX_ROWS <=? length (pending cur)) eqn:Hle.
  - apply Nat.leb_le in Hle.
    assert (Hskip : skipn MAX_ROWS (pending cur) = [])
      by (apply skipn_all2; lia).
    cbn [fst snd pending failure]. rewrite Hskip.
    destruct (failure cur); [reflexivity|].
    cbn [fst row_truthy]. now rewrite firstn_all2 by lia.
  - destruct (failure cur); [reflexivity|].
    cbn [fst snd pending failure]. reflexivity.
Qed.

(** X7: for an accepted query whose result has at most [MAX_ROWS] rows,
    [execute_query] returns all of them and logs nothing but the statement
    it runs; if the engine fails while stepping through such a result, the
    error is raised and no rows are returned. *)
Theorem execute_query_small_result
    (e : env) (sql safe : str) (cur : cursor) (w : world) :
  _normalise_query sql = Ok safe ->
  connect e = Ok tt ->
  database e safe = Ok cur ->
  length (pending cur) <= MAX_ROWS ->
  match failure cur with
  | None =>
      execute_query e sql w
      = (Ok (match description cur with
             | Some (d :: ds) => d :: ds
             | _ => []
             end, pending cur),
         {| log := log w ++ [(INFO, lit "Executing SQL: " ++ safe)];
            ticket_file := ticket_file w;
            ticks := ticks w |})
  | Some err => fst (execute_query e sql w) = Raise err
  end.
Proof. apply execute_query_small. Qed.

Lemma execute_query_small_result_witness :
  let e := sample_env outage outage echo_db (Ok (JObject [])) in
  execute_query e (lit " SELECT 1 ") initial_world
  = (Ok ([lit "sql"], [[SqlText (lit "SELECT 1")]]),
     {| log := [(INFO, lit "Executing SQL: SELECT 1")];
        ticket_file := None;
        ticks := 0 |}).
Proof.
  intros e.
  apply (execute_query_small_result e (lit " SELECT 1 ") (lit "SELECT 1")
           {| description := Some [lit "sql"];
              pending := [[SqlText (lit "SELECT 1")]];
              failure := None |} initial_world).
  - vm_compute. reflexivity.
  - reflexivity.
  - reflexivity.
  - apply Nat.leb_le. vm_compute. reflexivity.
Defined.

(** ** The ticket store *)

Lemma replace_scan_single (c d : ascii) (s : str) :
  replace_scan s [c] [d] = map (fun x => if Ascii.eqb x c then d else x) s.
Proof.
  apply (replace_scan_ind c [] [d]
           (fun s out => out = map (fun x => if Ascii.eqb x c then d else x) s)).
  - reflexivity.
  - intros x t Hhit IH. cbn [length skipn] in IH.
    rewrite startswith_cons, startswith_nil_r, andb_true_r, Ascii.eqb_sym in Hhit.
    cbn [map app]. rewrite Hhit. cbn [length skipn]. now rewrite IH.
  - intros x t Hmiss IH.
    rewrite startswith_cons, startswith_nil_r, andb_true_r, Ascii.eqb_sym in Hmiss.
    cbn [map]. now rewrite Hmiss, IH.
Qed.

Lemma sanitize_blanks_separators_aux (s : str) :
  replace (replace s [nl] (lit " ")) (lit ",") (lit " ")
  = map blank_separator s.
Proof.
  unfold replace. change (lit ",") with [","%char].
  change (lit " ") with [" "%char].
  rewrite !replace_scan_single, map_map.
  apply map_ext. intros x. unfold blank_separator.
  destruct (Ascii.eqb x nl); reflexivity.
Qed.

(** X8: what [create_support_ticket] does to a title or description: each
    newline and each comma becomes one space and every other character
    stays, so the length stays; a value that is not a string raises an
    [AttributeError]. *)
Theorem sanitize_blanks_separators (v : jval) :
  match v with
  | JString s =>
      sanitize v = Ok (map blank_separator s)
      /\ length (map blank_separator s) = length s
  | JNonString _ _ => exists msg, sanitize v = Raise (AttributeError msg)
  end.
Proof.
  destruct v as [s|t r]; [|eexists; reflexivity].
  split; [|apply length_map].
  unfold sanitize. now rewrite sanitize_blanks_separators_aux.
Qed.

(** X9: [create_support_ticket] only ever appends to the ticket file, and
    it reads the clock twice.  With a title and a description that are
    strings it returns, and the text it has appended is exactly the
    identifier, the title and the description with newlines and commas
    blanked, the priority as it was given, and the timestamp, separated by
    commas and closed by a newline; nothing is done to the priority, so a
    newline or a comma in it reaches the file.  Otherwise it raises an
    [AttributeError] and has appended and logged nothing, but the file
    exists. *)
Theorem create_support_ticket_appends_only
    (e : env) (t d p : jval) (w : world) :
  let before := match ticket_file w with
                | Some old => old
                | None => ticket_header
                end in
  let after := snd (create_support_ticket e t d p w) in
  ticks after = S (S (ticks w))
  /\ match t, d with
     | JString title_text, JString description_text =>
         exists tk,
           fst (create_support_ticket e t d p w) = Ok tk
           /\ ticket_id tk
              = lit "T-" ++ str_of_Z (int_timestamp (utcoffset e)
                                        (clock e (S (ticks w))))
           /\ created_at tk = isoformat (clock e (ticks w))
           /\ ticket_file after
              = Some (before ++ ticket_id tk ++ lit ","
                      ++ map blank_separator title_text ++ lit ","
                      ++ map blank_separator description_text ++ lit ","
                      ++ py_format p ++ lit "," ++ created_at tk ++ [nl])
     | _, _ =>
         (exists msg,
             fst (create_support_ticket e t d p w) = Raise (AttributeError msg))
         /\ ticket_file after = Some before
         /\ log after = log w
     end.
Proof.
  destruct t as [t|tt tr], d as [d|dt dr].
  - pose proof (create_support_ticket_strings e t d p w) as H.
    cbv zeta in *. rewrite H. cbn [fst snd ticks ticket_file].
    split; [reflexivity|]. eexists. split; [reflexivity|].
    cbn [ticket_id created_at]. split; [reflexivity|]. split; [reflexivity|].
    rewrite !sanitize_blanks_separators_aux. reflexivity.
  - destruct w as [lg [old|] k]; cbv zeta; split; try reflexivity;
      (split; [eexists; reflexivity|split; reflexivity]).
  - destruct w as [lg [old|] k]; cbv zeta; split; try reflexivity;
      (split; [eexists; reflexivity|split; reflexivity]).
  - destruct w as [lg [old|] k]; cbv zeta; split; try reflexivity;
      (split; [eexists; reflexivity|split; reflexivity]).
Qed.

(** X23: for every title and description that are strings and every valid
    priority, the text appended to the ticket file holds no newline before
    the one that closes it, and splitting it at the commas gives exactly
    five fields: the identifier, the title and the description with
    newlines and commas blanked, the priority and the timestamp. *)
Theorem persisted_record_has_five_fields
    (e : env) (t d p : str) (w : world) :
  valid_priority p ->
  exists tk w' body,
    create_support_ticket e (JString t) (JString d) (JString p) w = (Ok tk, w')
    /\ ticket_id tk
       = lit "T-" ++ str_of_Z (int_timestamp (utcoffset e)
                                 (clock e (S (ticks w))))
    /\ created_at tk = isoformat (clock e (ticks w))
    /\ ticket_file w'
       = Some (match ticket_file w with
               | Some text => text
               | None => ticket_header
               end ++ body ++ [nl])
    /\ count body nl = 0
    /\ split body ","%char
       = [ticket_id tk; map blank_separator t; map blank_separator d; p;
          created_at tk].
Proof.
  intros Hp.
  pose proof (create_support_ticket_strings e t d (JString p) w) as Hrun.
  cbv zeta in Hrun. rewrite !sanitize_blanks_separators_aux in Hrun.
  set (id := lit "T-" ++ str_of_Z (int_timestamp (utcoffset e)
                                     (clock e (S (ticks w))))) in *.
  set (ts := isoformat (clock e (ticks w))) in *.
  set (st := map blank_separator t) in *.
  set (sd := map blank_separator d) in *.
  assert (Hst : forall c, c = ","%char \/ c = nl -> count st c = 0).
  { intros c Hc. pose proof (sanitize_blanks_separators_aux t) as E.
    fold st in E. rewrite <- E.
    destruct (sanitize_clean t _ eq_refl) as [H1 H2].
    destruct Hc as [->| ->]; assumption. }
  assert (Hsd : forall c, c = ","%char \/ c = nl -> count sd c = 0).
  { intros c Hc. pose proof (sanitize_blanks_separators_aux d) as E.
    fold sd in E. rewrite <- E.
    destruct (sanitize_clean d _ eq_refl) as [H1 H2].
    destruct Hc as [->| ->]; assumption. }
  assert (Hid : forall c, c = ","%char \/ c = nl -> count id c = 0)
    by (intros c Hc; now apply ticket_id_clean).
  assert (Hts : forall c, c = ","%char \/ c = nl -> count ts c = 0)
    by (intros c Hc; now apply isoformat_clean).
  assert (Hpc : forall c, c = ","%char \/ c = nl -> count p c = 0)
    by (intros c Hc; now apply valid_priority_clean).
  exists {| ticket_id := id; title := JString t; priority := JString p;
            created_at := ts |}.
  eexists.
  exists (id ++ ","%char :: st ++ ","%char :: sd ++ ","%char :: p
             ++ ","%char :: ts).
  split; [exact Hrun|]. cbn [ticket_file ticket_id created_at].
  split; [reflexivity|]. split; [reflexivity|].
  split.
  { f_equal. f_equal. unfold ticket_line. cbn [py_format].
    change (lit ",") with [","%char].
    repeat (rewrite <- app_assoc; cbn [app]). reflexivity. }
  split.
  { repeat (rewrite count_app; cbn [count]).
    rewrite Hid, Hts, Hpc, Hst, Hsd by auto. reflexivity. }
  rewrite !split_app by auto. rewrite split_clean by auto. reflexivity.
Qed.

Lemma persisted_record_has_five_fields_witness :
  let e := sample_env outage outage echo_db (Ok (JObject [])) in
  exists tk w' body,
    create_support_ticket e (JString (lit "Bad, data" ++ [nl] ++ lit "again"))
      (JString (lit "Director field garbled, twice")) (JString (lit "high"))
      initial_world = (Ok tk, w')
    /\ ticket_id tk = lit "T-1715949007"
    /\ created_at tk = lit "2024-05-17T12:30:07.250000"
    /\ ticket_file w' = Some (ticket_header ++ body ++ [nl])
    /\ count body nl = 0
    /\ split body ","%char
       = [ticket_id tk; lit "Bad  data again";
          lit "Director field garbled  twice"; lit "high"; created_at tk].
Proof.
  intros e.
  apply (persisted_record_has_five_fields e
           (lit "Bad, data" ++ [nl] ++ lit "again")
           (lit "Director field garbled, twice") (lit "high") initial_world).
  right. right. reflexivity.
Defined.

(** ** The dispatcher *)

Lemma execute_query_frame (e : env) (sql : str) (w : world) :
  ticket_file (snd (execute_query e sql w)) = ticket_file w
  /\ ticks (snd (execute_query e sql w)) = ticks w.
Proof.
  unfold execute_query, bind, lift, logger, ret.
  destruct (_normalise_query sql) as [safe|]; [|split; reflexivity].
  destruct (connect e) as [[]|]; [|split; reflexivity].
  destruct (database e safe) as [cur|]; [|split; reflexivity].
  destruct (fetchmany cur MAX_ROWS) as [[rows0 cur']|]; [|split; reflexivity].
  cbv beta iota delta [fst snd].
  destruct (fetchone cur') as [[next cur'']|]; [|split; reflexivity].
  cbv beta iota delta [fst snd].
  destruct (row_truthy next); split; reflexivity.
Qed.

Lemma execute_query_rows_bound (e : env) (sql : str) (w w' : world)
    (cols : list str) (rows : list row) :
  execute_query e sql w = (Ok (cols, rows), w') -> length rows <= MAX_ROWS.
Proof.
  intros H. unfold execute_query, bind, lift, logger, ret in H.
  destruct (_normalise_query sql) as [safe|]; [|discriminate].
  destruct (connect e) as [[]|]; [|discriminate].
  destruct (database e safe) as [cur|]; [|discriminate].
  destruct (fetchmany cur MAX_ROWS) as [[rows0 cur']|] eqn:Hfm; [|discriminate].
  cbv beta iota delta [fst snd] in H.
  destruct (fetchone cur') as [[next cur'']|]; [|discriminate].
  cbv beta iota delta [fst snd] in H.
  destruct (row_truthy next).
  - assert (Hrows : rows = firstn MAX_ROWS rows0) by congruence.
    rewrite Hrows. apply firstn_le_length.
  - assert (Hrows : rows = rows0) by congruence.
    rewrite Hrows. exact (fetchmany_length _ _ _ _ Hfm).
Qed.

Lemma execute_query_value_frame (e : env) (query : jval) (w : world) :
  ticket_file (snd (execute_query_value e query w)) = ticket_file w
  /\ ticks (snd (execute_query_value e query w)) = ticks w.
Proof.
  destruct query as [sql|[|] r]; [apply execute_query_frame|..];
    split; reflexivity.
Qed.

Lemma execute_query_value_rows_bound (e : env) (query : jval) (w w' : world)
    (cols : list str) (rows : list row) :
  execute_query_value e query w = (Ok (cols, rows), w') ->
  length rows <= MAX_ROWS.
Proof.
  destruct query as [sql|[|] r]; [apply execute_query_rows_bound|..];
    discriminate.
Qed.

Lemma ask_database_branch_returns (e : env) (messages : list chat_message)
    (assistant : assistant_message) (w : world) :
  exists d w',
    ask_database_branch e messages assistant w = (Ok d, w')
    /\ result_shape d
    /\ ticket_file w' = ticket_file w /\ ticks w' = ticks w.
Proof.
  unfold ask_database_branch, try_else, bind, lift, ret.
  destruct (loads_arguments e (msg_function_call assistant)) as [arguments|err];
    [|eexists _, _; repeat split; constructor].
  destruct (subscript arguments (lit "query")) as [query|err];
    [|eexists _, _; repeat split; constructor].
  pose proof (execute_query_value_frame e query w) as [F1 F2].
  pose proof (execute_query_value_rows_bound e query w) as Hbound.
  destruct (execute_query_value e query w) as [[[cols rows]|err] w2];
    cbn [fst snd] in *; [|eexists _, _; repeat split; trivial; constructor].
  specialize (Hbound w2 cols rows eq_refl).
  destruct (json_dumps_rows e cols rows) as [payload|err];
    [|eexists _, _; repeat split; trivial; constructor].
  cbn [fst snd].
  match goal with
  | |- context [follow_up_text e ?m ?w0] =>
      pose proof (follow_up_text_frame e m w0) as [G1 G2];
      destruct (follow_up_text e m w0) as [[text|err] w3]
  end; cbn [fst snd] in *.
  - eexists _, _. split; [reflexivity|].
    split; [now constructor|]. split; cbn [ticket_file ticks]; congruence.
  - destruct err; eexists _, _; (split; [reflexivity|]);
      (split; [now constructor|]); split; congruence.
Qed.

Lemma create_support_ticket_branch_shape (e : env) (messages : list chat_message)
    (assistant : assistant_message) (w w' : world) (d : result) :
  create_support_ticket_branch e messages assistant w = (Ok d, w') ->
  result_shape d.
Proof.
  unfold create_support_ticket_branch, try_else, bind, lift, ret, try, logger.
  destruct (loads_arguments e (msg_function_call assistant)) as [arguments|err];
    [|intros H; assert (E : d = [("error"%string,
         PStr (lit "Failed to parse function arguments: " ++ exn_text err))])
       by congruence; rewrite E; constructor].
  destruct (dict_get arguments (lit "title") (JString (lit "Untitled issue")))
    as [t|]; [|discriminate].
  destruct (dict_get arguments (lit "description") (JString []))
    as [ds|]; [|discriminate].
  destruct (dict_get arguments (lit "priority") (JString (lit "medium")))
    as [p|]; [|discriminate].
  destruct (create_support_ticket e t ds p w) as [[tk|err] w2]; [|discriminate].
  match goal with
  | |- context [follow_up_text e ?m ?w0] =>
      destruct (follow_up_text e m w0) as [[text|err] w3]
  end; intros H; cbv beta iota in H.
  - assert (E : d = [("text"%string, PStr text); ("ticket"%string, PTicket tk)])
      by congruence.
    rewrite E. constructor.
  - assert (E : d = [("text"%string,
                      PStr (lit "Ticket created: " ++ ticket_id tk
                            ++ lit ". (Follow-up call failed: "
                            ++ exn_text err ++ lit ")"));
                     ("ticket"%string, PTicket tk)])
      by congruence.
    rewrite E. constructor.
Qed.

Lemma run_agent_shape (e : env) (question : str) (w w' : world) (d : result) :
  run_agent e question w = (Ok d, w') -> result_shape d.
Proof.
  unfold run_agent.
  destruct (OPENAI_API_KEY e) as [[|k ks]|];
    try (intros H; assert (E : d = [("error"%string,
           PStr (lit "OPENAI_API_KEY is not set. Add it to your .env file."))])
           by (unfold ret in H; congruence); rewrite E; constructor).
  unfold chat_completion_request, try_else, bind, logger, lift.
  destruct (provider e [SystemMessage SYSTEM_PROMPT; UserMessage question]
              (Some FUNCTIONS)) as [first|err]; cbv beta iota zeta.
  - destruct (is_name (finish_reason first) (lit "function_call"));
      cbn [negb].
    + destruct (is_name _ (lit "ask_database")).
      * match goal with
        | |- ask_database_branch e ?m ?a ?w0 = _ -> _ =>
            destruct (ask_database_branch_returns e m a w0)
              as (d0 & w0' & -> & Hshape & _)
        end.
        intros H. assert (E : d = d0) by congruence. now rewrite E.
      * destruct (is_name _ (lit "create_support_ticket")).
        -- apply create_support_ticket_branch_shape.
        -- unfold ret. intros H.
           match type of H with
           | (Ok ?x, _) = _ => assert (E : d = x) by congruence
           end.
           rewrite E. constructor.
    + unfold ret. intros H.
      match type of H with
      | (Ok ?x, _) = _ => assert (E : d = x) by congruence
      end.
      rewrite E. constructor.
  - destruct err; unfold ret; intros H;
      match type of H with
      | (Ok ?x, _) = _ => assert (E : d = x) by congruence
      end;
      rewrite E; constructor.
Qed.

(** X10: for a first answer of the expected shape (see [choice]) that
    does not select the ticket tool, [run_agent] raises nothing: provider
    errors, arguments that do not parse, refused or failing queries and a
    failing second call all come back as a dict, and the ticket file and
    the clock are left as they were. *)
Theorem run_agent_returns_outside_ticket_tool
    (e : env) (question : str) (w : world) :
  (forall first,
      provider e [SystemMessage SYSTEM_PROMPT; UserMessage question]
        (Some FUNCTIONS) = Ok first ->
      selects_ticket_tool first = false) ->
  exists d w',
    run_agent e question w = (Ok d, w')
    /\ ticket_file w' = ticket_file w /\ ticks w' = ticks w.
Proof.
  intros Hsel. unfold run_agent.
  destruct (OPENAI_API_KEY e) as [[|k ks]|];
    try (eexists _, _; repeat split; reflexivity).
  unfold chat_completion_request, try_else, bind, logger, lift.
  destruct (provider e [SystemMessage SYSTEM_PROMPT; UserMessage question]
              (Some FUNCTIONS)) as [first|err]; cbv beta iota zeta.
  - specialize (Hsel first eq_refl). unfold selects_ticket_tool in Hsel.
    destruct (is_name (finish_reason first) (lit "function_call"));
      cbn [negb andb] in *;
      [|eexists _, _; repeat split; reflexivity].
    destruct (is_name _ (lit "ask_database")).
    + match goal with
      | |- context [ask_database_branch e ?m ?a ?w0] =>
          destruct (ask_database_branch_returns e m a w0)
            as (d0 & w0' & -> & _ & F1 & F2)
      end.
      exists d0, w0'. repeat split; assumption.
    + rewrite Hsel. eexists _, _; repeat split; reflexivity.
  - destruct err; eexists _, _; repeat split; reflexivity.
Qed.

Lemma run_agent_returns_outside_ticket_tool_witness :
  exists d w',
    run_agent select_one_env (lit "How many titles?") initial_world = (Ok d, w')
    /\ ticket_file w' = None /\ ticks w' = 0.
Proof.
  apply (run_agent_returns_outside_ticket_tool select_one_env
           (lit "How many titles?") initial_world).
  intros first [= <-]. reflexivity.
Defined.

(** X11: a dict that [run_agent] returns holds exactly one of the keys
    [error] and [text], and it holds [query] only next to [text],
    [columns] and [rows]. *)
Theorem run_agent_result_keys
    (e : env) (question : str) (w w' : world) (d : result) :
  run_agent e question w = (Ok d, w') ->
  xorb (has_key d "error") (has_key d "text") = true
  /\ (has_key d "query" = true ->
      has_key d "text" = true /\ has_key d "columns" = true
      /\ has_key d "rows" = true /\ has_key d "ticket" = false).
Proof.
  intros H. destruct (run_agent_shape _ _ _ _ _ H); split;
    try reflexivity; try discriminate.
  intros _. repeat split.
Qed.

Lemma run_agent_result_keys_witness :
  let d := [("error"%string,
             PStr (lit "OPENAI_API_KEY is not set. Add it to your .env file."))] in
  xorb (has_key d "error") (has_key d "text") = true
  /\ (has_key d "query" = true ->
      has_key d "text" = true /\ has_key d "columns" = true
      /\ has_key d "rows" = true /\ has_key d "ticket" = false).
Proof.
  intros d.
  apply (run_agent_result_keys
           {| OPENAI_API_KEY := None;
              provider := fun _ _ => outage;
              connect := Ok tt;
              database := echo_db;
              json_loads := fun _ => Ok (JObject []);
              json_dumps_rows := fun _ _ => Ok [];
              json_dumps_ticket := fun _ => [];
              clock := sample_clock;
              utcoffset := fun _ => 0%Z |}
           (lit "How many titles?") initial_world initial_world d).
  reflexivity.
Defined.

(** X12: the rows in a dict that [run_agent] returns are never more than
    [MAX_ROWS], also when they sit next to an error. *)
Theorem run_agent_rows_bounded
    (e : env) (question : str) (w w' : world) (d : result) (rows : list row) :
  run_agent e question w = (Ok d, w') ->
  get d "rows" = Some (PRows rows) ->
  length rows <= MAX_ROWS.
Proof.
  intros H. destruct (run_agent_shape _ _ _ _ _ H); cbn [get String.eqb];
    try discriminate; intros Hget;
    assert (E : rows = rows0) by (cbn in Hget; congruence);
    now rewrite E.
Qed.

Lemma run_agent_rows_bounded_witness :
  length [[SqlText (lit "SELECT 1")]] <= MAX_ROWS.
Proof.
  apply (run_agent_rows_bounded select_one_env (lit "How many titles?")
           initial_world
           (snd (run_agent select_one_env (lit "How many titles?") initial_world))
           [("error"%string,
             PStr (lit "OpenAI follow-up failed: connection refused"));
            ("columns"%string, PColumns [lit "sql"]);
            ("rows"%string, PRows [[SqlText (lit "SELECT 1")]])]).
  - vm_compute. reflexivity.
  - reflexivity.
Defined.

(** [run_agent] up to the branch of a tool call, with the world it has
    reached there. *)
Lemma run_agent_tool_call_world (e : env) (question : str) (w : world)
    (first : choice) (fc : function_call) (name : str) :
  (exists k ks, OPENAI_API_KEY e = Some (k :: ks)) ->
  provider e [SystemMessage SYSTEM_PROMPT; UserMessage question] (Some FUNCTIONS)
  = Ok first ->
  finish_reason first = Some (lit "function_call") ->
  msg_function_call (message first) = Some fc ->
  fc_name fc = Some name ->
  run_agent e question w
  = (if str_eqb name (lit "ask_database")
     then ask_database_branch e
            [SystemMessage SYSTEM_PROMPT; UserMessage question] (message first)
     else if str_eqb name (lit "create_support_ticket")
     then create_support_ticket_branch e
            [SystemMessage SYSTEM_PROMPT; UserMessage question] (message first)
     else ret [("error"%string,
                PStr (lit "Unknown function requested: " ++ name))])
      (after_first_call question w).
Proof.
  intros (k & ks & Hkey) Hfirst Hfin Hfc Hname.
  unfold run_agent. rewrite Hkey.
  unfold chat_completion_request, try_else, bind, logger, lift.
  rewrite Hfirst. cbv beta iota zeta. rewrite Hfin.
  cbv beta iota delta [is_name].
  rewrite str_eqb_refl. cbv beta iota delta [negb].
  rewrite Hfc, Hname. unfold after_first_call. cbn [log ticket_file ticks].
  rewrite <- app_assoc. reflexivity.
Qed.

(** X13: when the rewriter refuses the query of the model, [run_agent]
    returns its message as a database error; the engine has not been asked
    and no second model call has been made: the log holds only the entries
    of the first call. *)
Theorem run_agent_refused_query
    (e : env) (question : str) (w : world) (first : choice)
    (fc : function_call) (arguments : parsed) (sql : str) (err : exn) :
  (exists k ks, OPENAI_API_KEY e = Some (k :: ks)) ->
  provider e [SystemMessage SYSTEM_PROMPT; UserMessage question] (Some FUNCTIONS)
  = Ok first ->
  finish_reason first = Some (lit "function_call") ->
  msg_function_call (message first) = Some fc ->
  fc_name fc = Some (lit "ask_database") ->
  loads_arguments e (Some fc) = Ok arguments ->
  subscript arguments (lit "query") = Ok (JString sql) ->
  _normalise_query sql = Raise err ->
  run_agent e question w
  = (Ok [("error"%string, PStr (lit "Database error: " ++ exn_text err))],
     after_first_call question w).
Proof.
  intros Hkey Hfirst Hfin Hfc Hname Hargs Hsub Href.
  rewrite (run_agent_tool_call_world e question w first fc _
             Hkey Hfirst Hfin Hfc Hname).
  rewrite str_eqb_refl.
  unfold ask_database_branch, try_else, bind, lift, ret.
  rewrite Hfc, Hargs, Hsub.
  unfold execute_query_value, execute_query, bind, lift.
  rewrite Href. reflexivity.
Qed.

Lemma run_agent_refused_query_witness :
  let e := sample_env (tool_call (lit "ask_database") (lit "{}")) outage echo_db
             (Ok (JObject [(lit "query",
                            JString (lit "DELETE FROM netflix_titles"))])) in
  run_agent e (lit "Remove everything") initial_world
  = (Ok [("error"%string,
          PStr (lit "Database error: Only SELECT statements (optionally starting with WITH) are allowed."))],
     after_first_call (lit "Remove everything") initial_world).
Proof.
  intros e.
  apply (run_agent_refused_query e (lit "Remove everything") initial_world
           (sample_choice (lit "ask_database"))
           (sample_call (lit "ask_database"))
           (JObject [(lit "query", JString (lit "DELETE FROM netflix_titles"))])
           (lit "DELETE FROM netflix_titles")
           (ValueError
              (lit "Only SELECT statements (optionally starting with WITH) are allowed."))
           (ex_intro _ _ (ex_intro _ _ eq_refl))
           eq_refl eq_refl eq_refl eq_refl eq_refl eq_refl).
  vm_compute. reflexivity.
Defined.

(** X14: when the arguments of the query tool are a dict without the key
    [query] (or are absent, which reads as the empty dict), [run_agent]
    reports that it could not parse them and goes no further. *)
Theorem run_agent_missing_query_key
    (e : env) (question : str) (w : world) (first : choice)
    (fc : function_call) (fields : list (str * jval)) :
  (exists k ks, OPENAI_API_KEY e = Some (k :: ks)) ->
  provider e [SystemMessage SYSTEM_PROMPT; UserMessage question] (Some FUNCTIONS)
  = Ok first ->
  finish_reason first = Some (lit "function_call") ->
  msg_function_call (message first) = Some fc ->
  fc_name fc = Some (lit "ask_database") ->
  loads_arguments e (Some fc) = Ok (JObject fields) ->
  dict_lookup fields (lit "query") = None ->
  run_agent e question w
  = (Ok [("error"%string,
          PStr (lit "Failed to parse function arguments: 'query'"))],
     after_first_call question w).
Proof.
  intros Hkey Hfirst Hfin Hfc Hname Hargs Hmiss.
  rewrite (run_agent_tool_call_world e question w first fc _
             Hkey Hfirst Hfin Hfc Hname).
  rewrite str_eqb_refl.
  unfold ask_database_branch, try_else, bind, lift, ret.
  rewrite Hfc, Hargs. unfold subscript. rewrite Hmiss. reflexivity.
Qed.

Lemma run_agent_missing_query_key_witness :
  let first := {| finish_reason := Some (lit "function_call");
                  message := {| msg_content := Null;
                                msg_function_call :=
                                  Some {| fc_name := Some (lit "ask_database");
                                          fc_arguments := None |} |} |} in
  let e := sample_env (Ok first) outage echo_db (Ok (JNonObject (JString []))) in
  run_agent e (lit "How many titles?") initial_world
  = (Ok [("error"%string,
          PStr (lit "Failed to parse function arguments: 'query'"))],
     after_first_call (lit "How many titles?") initial_world).
Proof.
  intros first e.
  apply (run_agent_missing_query_key e (lit "How many titles?") initial_world
           first {| fc_name := Some (lit "ask_database"); fc_arguments := None |}
           [] (ex_intro _ _ (ex_intro _ _ eq_refl))
           eq_refl eq_refl eq_refl eq_refl eq_refl eq_refl).
Defined.

(** X15: the whole query round.  When the model asks for a query, the
    executor returns columns and rows, and the second model call, made
    without tools on the conversation extended by the tool call and the
    serialized result, answers with a text, then [run_agent] returns that
    text trimmed, the columns, the rows and, under [query], the text of the
    model's query as the model sent it; the ticket file is untouched. *)
Theorem run_agent_query_answer
    (e : env) (question : str) (w : world) (first follow : choice)
    (fc : function_call) (arguments : parsed) (sql : str)
    (cols : list str) (rows : list row) (payload s : str) :
  (exists k ks, OPENAI_API_KEY e = Some (k :: ks)) ->
  provider e [SystemMessage SYSTEM_PROMPT; UserMessage question] (Some FUNCTIONS)
  = Ok first ->
  finish_reason first = Some (lit "function_call") ->
  msg_function_call (message first) = Some fc ->
  fc_name fc = Some (lit "ask_database") ->
  loads_arguments e (Some fc) = Ok arguments ->
  subscript arguments (lit "query") = Ok (JString sql) ->
  (forall w0, fst (execute_query e sql w0) = Ok (cols, rows)) ->
  json_dumps_rows e cols rows = Ok payload ->
  provider e (second_round question (message first) (lit "ask_database") payload)
    None = Ok follow ->
  msg_content (message follow) = Text s ->
  exists w',
    run_agent e question w
    = (Ok [("text"%string, PStr (strip s));
           ("columns"%string, PColumns cols);
           ("rows"%string, PRows rows);
           ("query"%string, PStr sql)], w')
    /\ ticket_file w' = ticket_file w.
Proof.
  intros Hkey Hfirst Hfin Hfc Hname Hargs Hsub Hexec Hdumps Hfollow Htext.
  rewrite (run_agent_tool_call_world e question w first fc _
             Hkey Hfirst Hfin Hfc Hname).
  rewrite str_eqb_refl.
  unfold ask_database_branch, try_else, bind, lift, ret.
  rewrite Hfc, Hargs, Hsub. cbn [execute_query_value].
  pose proof (execute_query_frame e sql (after_first_call question w)) as [F _].
  specialize (Hexec (after_first_call question w)).
  destruct (execute_query e sql (after_first_call question w)) as [r w2].
  cbn [fst snd] in *. subst r. cbn [fst snd]. rewrite Hdumps.
  cbn [fst snd app].
  unfold follow_up_text, chat_completion_request, bind, logger, lift.
  unfold second_round in Hfollow. rewrite Hfollow.
  unfold final_text_of. rewrite Htext.
  eexists. split; [reflexivity|]. exact F.
Qed.

Lemma run_agent_query_answer_witness :
  let e := sample_env (tool_call (lit "ask_database") (lit "{}"))
             (answer (lit " There is one row. ")) echo_db
             (Ok (JObject [(lit "query", JString (lit " SELECT 1 "))])) in
  exists w',
    run_agent e (lit "How many titles?") initial_world
    = (Ok [("text"%string, PStr (strip (lit " There is one row. ")));
           ("columns"%string, PColumns [lit "sql"]);
           ("rows"%string, PRows [[SqlText (lit "SELECT 1")]]);
           ("query"%string, PStr (lit " SELECT 1 "))], w')
    /\ ticket_file w' = None.
Proof.
  intros e.
  apply (run_agent_query_answer e (lit "How many titles?") initial_world
           (sample_choice (lit "ask_database"))
           {| finish_reason := Some (lit "stop");
              message := {| msg_content := Text (lit " There is one row. ");
                            msg_function_call := None |} |}
           (sample_call (lit "ask_database"))
           (JObject [(lit "query", JString (lit " SELECT 1 "))])
           (lit " SELECT 1 ") [lit "sql"] [[SqlText (lit "SELECT 1")]]
           (lit "{}") (lit " There is one row. ")
           (ex_intro _ _ (ex_intro _ _ eq_refl))
           eq_refl eq_refl eq_refl eq_refl eq_refl eq_refl).
  - intros w0. vm_compute. reflexivity.
  - reflexivity.
  - reflexivity.
  - reflexivity.
Defined.

Lemma create_support_ticket_bad_title (e : env) (b : bool) (r : str)
    (d p : jval) (w : world) :
  create_support_ticket e (JNonString b r) d p w
  = (Raise (AttributeError (lit "object has no attribute 'replace'")),
     {| log := log w;
        ticket_file := Some (match ticket_file w with
                             | Some old => old
                             | None => ticket_header
                             end);
        ticks := S (S (ticks w)) |}).
Proof.
  unfold create_support_ticket, bind, _ensure_ticket_store, utcnow, lift,
    sanitize.
  destruct w as [lg [old|] k]; reflexivity.
Qed.

(** X16: the exceptions of the ticket branch are not caught.  When the
    model selects the ticket tool and its arguments are not a dict,
    [run_agent] raises an [AttributeError] with the ticket file untouched;
    when they are a dict whose title is not a string, it raises an
    [AttributeError] after the ticket file has been created, with no line
    added for the ticket. *)
Theorem run_agent_ticket_tool_raises
    (e : env) (question : str) (w : world) (first : choice)
    (fc : function_call) (arguments : parsed) :
  (exists k ks, OPENAI_API_KEY e = Some (k :: ks)) ->
  provider e [SystemMessage SYSTEM_PROMPT; UserMessage question] (Some FUNCTIONS)
  = Ok first ->
  finish_reason first = Some (lit "function_call") ->
  msg_function_call (message first) = Some fc ->
  fc_name fc = Some (lit "create_support_ticket") ->
  loads_arguments e (Some fc) = Ok arguments ->
  match arguments with
  | JNonObject _ =>
      exists msg,
        run_agent e question w
        = (Raise (AttributeError msg), after_first_call question w)
  | JObject fields =>
      forall b r,
        dict_lookup fields (lit "title") = Some (JNonString b r) ->
        exists msg w',
          run_agent e question w = (Raise (AttributeError msg), w')
          /\ ticket_file w' = Some (match ticket_file w with
                                    | Some old => old
                                    | None => ticket_header
                                    end)
  end.
Proof.
  intros Hkey Hfirst Hfin Hfc Hname Hargs.
  rewrite (run_agent_tool_call_world e question w first fc _
             Hkey Hfirst Hfin Hfc Hname).
  change (str_eqb (lit "create_support_ticket") (lit "ask_database"))
    with false.
  rewrite str_eqb_refl. cbv beta iota.
  unfold create_support_ticket_branch, try_else, bind, lift.
  rewrite Hfc, Hargs.
  destruct arguments as [fields|v]; [|eexists; reflexivity].
  intros b r Htitle. unfold dict_get. rewrite Htitle.
  destruct (dict_lookup fields (lit "description")) as [d|];
    destruct (dict_lookup fields (lit "priority")) as [p|];
    rewrite create_support_ticket_bad_title;
    eexists _, _; split; reflexivity.
Qed.

Lemma run_agent_ticket_tool_raises_witness :
  let e := sample_env (tool_call (lit "create_support_ticket") (lit "{}"))
             outage echo_db
             (Ok (JObject [(lit "title", JNonString true (lit "42"))])) in
  exists msg w',
    run_agent e (lit "Please file a ticket") initial_world
    = (Raise (AttributeError msg), w')
    /\ ticket_file w' = Some ticket_header.
Proof.
  intros e.
  apply (run_agent_ticket_tool_raises e (lit "Please file a ticket")
           initial_world (sample_choice (lit "create_support_ticket"))
           (sample_call (lit "create_support_ticket"))
           (JObject [(lit "title", JNonString true (lit "42"))])
           (ex_intro _ _ (ex_intro _ _ eq_refl))
           eq_refl eq_refl eq_refl eq_refl eq_refl true (lit "42") eq_refl).
Defined.

(** X17: a ticket call without title, description and priority gets the
    defaults: the title [Untitled issue], an empty description and the
    priority [medium]; the line written has an empty third field. *)
Theorem run_agent_ticket_defaults
    (e : env) (question : str) (w : world) (first : choice)
    (fc : function_call) (fields : list (str * jval)) :
  (exists k ks, OPENAI_API_KEY e = Some (k :: ks)) ->
  provider e [SystemMessage SYSTEM_PROMPT; UserMessage question] (Some FUNCTIONS)
  = Ok first ->
  finish_reason first = Some (lit "function_call") ->
  msg_function_call (message first) = Some fc ->
  fc_name fc = Some (lit "create_support_ticket") ->
  loads_arguments e (Some fc) = Ok (JObject fields) ->
  dict_lookup fields (lit "title") = None ->
  dict_lookup fields (lit "description") = None ->
  dict_lookup fields (lit "priority") = None ->
  exists w' tk text,
    run_agent e question w
    = (Ok [("text"%string, PStr text); ("ticket"%string, PTicket tk)], w')
    /\ title tk = JString (lit "Untitled issue")
    /\ priority tk = JString (lit "medium")
    /\ ticket_file w'
       = Some (match ticket_file w with
               | Some old => old
               | None => ticket_header
               end
               ++ ticket_id tk ++ lit ",Untitled issue,,medium,"
               ++ created_at tk ++ [nl]).
Proof.
  intros Hkey Hfirst Hfin Hfc Hname Hargs Ht Hd Hp.
  rewrite (run_agent_tool_call_world e question w first fc _
             Hkey Hfirst Hfin Hfc Hname).
  change (str_eqb (lit "create_support_ticket") (lit "ask_database"))
    with false.
  rewrite str_eqb_refl. cbv beta iota.
  rewrite <- Hfc in Hargs.
  destruct (create_support_ticket_branch_run e
              [SystemMessage SYSTEM_PROMPT; UserMessage question]
              (message first) (after_first_call question w) (JObject fields)
              (lit "Untitled issue") [] (JString (lit "medium")) Hargs)
    as (w' & text & Hrun & Hstore & _);
    try (unfold dict_get; now rewrite ?Ht, ?Hd, ?Hp).
  eexists w', _, text. split; [exact Hrun|].
  split; [reflexivity|]. split; [reflexivity|].
  rewrite Hstore. cbn [ticket_file ticks after_first_call ticket_id created_at].
  reflexivity.
Qed.

Lemma run_agent_ticket_defaults_witness :
  let e := sample_env (tool_call (lit "create_support_ticket") (lit "{}"))
             outage echo_db (Ok (JObject [])) in
  exists w' tk text,
    run_agent e (lit "Please file a ticket") initial_world
    = (Ok [("text"%string, PStr text); ("ticket"%string, PTicket tk)], w')
    /\ title tk = JString (lit "Untitled issue")
    /\ priority tk = JString (lit "medium")
    /\ ticket_file w'
       = Some (ticket_header ++ ticket_id tk ++ lit ",Untitled issue,,medium,"
               ++ created_at tk ++ [nl]).
Proof.
  intros e.
  apply (run_agent_ticket_defaults e (lit "Please file a ticket") initial_world
           (sample_choice (lit "create_support_ticket"))
           (sample_call (lit "create_support_ticket")) []
           (ex_intro _ _ (ex_intro _ _ eq_refl))
           eq_refl eq_refl eq_refl eq_refl eq_refl eq_refl eq_refl eq_refl).
Defined.

(** ** The page *)

Lemma render_shape (d : result) :
  result_shape d ->
  exists widgets,
    render d = Ok widgets
    /\ (has_key d "error" = true -> widgets = [StError (or_none (get d "error"))])
    /\ (forall c r, In (StDataframe c r) widgets ->
                    exists rows, r = PRows rows /\ rows <> []
                                 /\ length rows <= MAX_ROWS).
Proof.
  intros [msg|v|msg cols rows Hb|text cols rows q Hb|text tk].
  - eexists. split; [reflexivity|]. split; [reflexivity|].
    intros c r [H|[]]. discriminate.
  - destruct v as [|[|x s]|[|x s]|[|x s]|t]; eexists;
      (split; [reflexivity|]); (split; [discriminate|]);
      intros c r Hin; repeat (destruct Hin as [Hin|Hin]; [discriminate|]);
      try destruct Hin.
  - eexists. split; [reflexivity|]. split; [reflexivity|].
    intros c r [H|[]]. discriminate.
  - destruct text as [|x text], cols as [|y cols], rows as [|z rows],
      q as [|[|u s]|[|u s]|[|u s]|t];
      eexists; (split; [reflexivity|]); (split; [discriminate|]);
      intros c r Hin;
      repeat (destruct Hin as [Hin|Hin];
              [first [discriminate
                     |injection Hin as <- <-; eexists;
                      split; [reflexivity|split; [discriminate|exact Hb]]]|]);
      try destruct Hin.
  - destruct text as [|x text]; eexists;
      (split; [reflexivity|]); (split; [discriminate|]);
      intros c r Hin; repeat (destruct Hin as [Hin|Hin]; [discriminate|]);
      try destruct Hin.
Qed.

(** X18: the button [Ask the agent].  A blank question is answered by a
    warning without any call.  Otherwise the trimmed question goes to
    [run_agent], and whatever dict it returns is rendered without an
    exception; a dict with an error shows the error and nothing else, so
    rows that come with an error are not shown; a table that is shown has
    at least one and at most [MAX_ROWS] rows. *)
Theorem ask_button_renders (e : env) (question : str) (w : world) :
  (strip question = [] ->
   ask_button e question w
   = (Ok [StWarning (lit "Please enter a question before submitting.")], w))
  /\ (strip question <> [] ->
      forall d w',
        run_agent e (strip question) w = (Ok d, w') ->
        exists widgets,
          ask_button e question w = (Ok widgets, w')
          /\ (has_key d "error" = true ->
              widgets = [StError (or_none (get d "error"))])
          /\ (forall c r, In (StDataframe c r) widgets ->
                          exists rows, r = PRows rows /\ rows <> []
                                       /\ length rows <= MAX_ROWS)).
Proof.
  unfold ask_button. split.
  - intros ->. reflexivity.
  - intros Hne d w' Hrun.
    destruct (strip question) as [|c q] eqn:E; [congruence|].
    destruct (render_shape d (run_agent_shape _ _ _ _ _ Hrun))
      as (widgets & Hrender & Herr & Htable).
    exists widgets. unfold bind, lift. rewrite Hrun, Hrender.
    repeat split; assumption.
Qed.

(** X19: the form [Create ticket].  With a blank title or a blank
    description nothing is written and a warning is shown.  Otherwise a
    ticket is created from the trimmed title and description: the ticket
    file gets one line and the page shows the identifier. *)
Theorem ticket_form_writes_only_complete_tickets
    (e : env) (ticket_title ticket_description ticket_priority : str)
    (w : world) :
  (strip ticket_title = [] \/ strip ticket_description = [] ->
   ticket_form e ticket_title ticket_description ticket_priority w
   = (Ok [StWarning (lit "Please provide both a title and a description.")], w))
  /\ (strip ticket_title <> [] -> strip ticket_description <> [] ->
      exists id timestamp w',
        ticket_form e ticket_title ticket_description ticket_priority w
        = (Ok [StSuccess (lit "Ticket " ++ id
                          ++ lit " created. A human analyst will contact you soon.")],
           w')
        /\ ticket_file w'
           = Some (match ticket_file w with
                   | Some old => old
                   | None => ticket_header
                   end
                   ++ ticket_line id
                        (map blank_separator (strip ticket_title))
                        (map blank_separator (strip ticket_description))
                        (JString ticket_priority) timestamp)).
Proof.
  unfold ticket_form. split.
  - intros [Ht|Hd]; [now rewrite Ht|].
    rewrite Hd. now destruct (strip ticket_title).
  - intros Ht Hd.
    destruct (strip ticket_title) as [|a t] eqn:Et; [congruence|].
    destruct (strip ticket_description) as [|b d] eqn:Ed; [congruence|].
    unfold bind, logger, ret.
    pose proof (create_support_ticket_strings e (a :: t) (b :: d)
                  (JString ticket_priority) w) as Hrun.
    cbv zeta in Hrun. rewrite Hrun.
    eexists _, _, _. split; [reflexivity|]. cbn [ticket_file].
    rewrite !sanitize_blanks_separators_aux. reflexivity.
Qed.

(** ** The batch script *)

Lemma str_eqb_eq (a b : str) : str_eqb a b = true <-> a = b.
Proof.
  split; [|intros ->; apply str_eqb_refl].
  revert b. induction a as [|x a IH]; intros [|y b]; simpl; try discriminate;
    [reflexivity|].
  intros H. apply andb_true_iff in H as [Hxy Hab].
  apply Ascii.eqb_eq in Hxy. f_equal; [exact Hxy | now apply IH].
Qed.

Lemma safe_query_unchanged (query : str) :
  str_eqb (ResponsesAI.safe_query_of query) query
  = negb (contains query raw_directors || contains query raw_ifnull_directors).
Proof.
  unfold ResponsesAI.safe_query_of.
  destruct (rewritten_clear query) as [C1 C2]. cbv zeta in C1, C2.
  destruct (contains query raw_directors) eqn:H1;
    [|destruct (contains query raw_ifnull_directors) eqn:H2]; cbn [orb negb].
  - destruct (str_eqb _ query) eqn:E; [|reflexivity].
    apply str_eqb_eq in E. rewrite E in C1. congruence.
  - destruct (str_eqb _ query) eqn:E; [|reflexivity].
    apply str_eqb_eq in E. rewrite E in C2. congruence.
  - apply str_eqb_eq.
    assert (E1 : replace query raw_directors safe_expansion = query)
      by (apply replace_scan_absent; exact H1).
    rewrite E1. apply replace_scan_absent. exact H2.
Qed.

(** X20: [ask_database] of the batch script leaves as many connections
    open as it found, whether it returns or raises; what it raises is the
    error of the engine behind the words [SQL error: ]. *)
Theorem ask_database_closes_connection
    (e : env) (query : str) (w : ResponsesAI.script_world) :
  ResponsesAI.open_connections (snd (ResponsesAI.ask_database e query w))
  = ResponsesAI.open_connections w
  /\ (forall msg,
         fst (ResponsesAI.ask_database e query w) = ResponsesAI.Raised msg ->
         exists err, msg = lit "SQL error: " ++ exn_text err).
Proof.
  unfold ResponsesAI.ask_database.
  destruct (connect e) as [[]|err0].
  - destruct (database e (ResponsesAI.safe_query_of query)) as [cur|err1].
    + destruct (ResponsesAI.fetchall cur) as [rows|err2];
        destruct (str_eqb (ResponsesAI.safe_query_of query) query);
        (split; [reflexivity|]); intros msg H; try discriminate;
        injection H as <-; now eexists.
    + destruct (str_eqb (ResponsesAI.safe_query_of query) query);
        (split; [reflexivity|]); intros msg H;
        injection H as <-; now eexists.
  - split; [reflexivity|]. intros msg H. injection H as <-. now eexists.
Qed.

(** X21: what [ask_database] prints once it is connected: the query it
    was given, then the notice of an adjusted query exactly when the query
    holds one of the two raw patterns, then, only if the engine succeeded,
    the number of rows. *)
Theorem ask_database_prints
    (e : env) (query : str) (w : ResponsesAI.script_world) :
  connect e = Ok tt ->
  let notice :=
    if contains query raw_directors || contains query raw_ifnull_directors
    then [lit "Adjusted query for safe JSON expansion."] else [] in
  let printed := ResponsesAI.stdout (snd (ResponsesAI.ask_database e query w)) in
  match fst (ResponsesAI.ask_database e query w) with
  | ResponsesAI.Returned rows =>
      printed
      = ResponsesAI.stdout w ++ [lit "Executing query:  " ++ query] ++ notice
        ++ [lit "Query returned " ++ str_of_nat (length rows) ++ lit " rows."]
  | ResponsesAI.Raised _ =>
      printed
      = ResponsesAI.stdout w ++ [lit "Executing query:  " ++ query] ++ notice
  end.
Proof.
  intros Hconn. cbv zeta. unfold ResponsesAI.ask_database.
  rewrite Hconn, safe_query_unchanged.
  destruct (contains query raw_directors || contains query raw_ifnull_directors);
    cbn [negb];
    destruct (database e (ResponsesAI.safe_query_of query)) as [cur|err1];
    try destruct (ResponsesAI.fetchall cur) as [rows|err2];
    cbn [fst snd ResponsesAI.close ResponsesAI.print ResponsesAI.stdout];
    repeat rewrite <- app_assoc; reflexivity.
Qed.

Lemma ask_database_prints_witness :
  let e := sample_env outage outage echo_db (Ok (JObject [])) in
  ResponsesAI.stdout
    (snd (ResponsesAI.ask_database e
            (lit "SELECT value FROM netflix_titles, json_each(directors)")
            {| ResponsesAI.stdout := []; ResponsesAI.open_connections := 0 |}))
  = [lit "Executing query:  SELECT value FROM netflix_titles, json_each(directors)";
     lit "Adjusted query for safe JSON expansion.";
     lit "Query returned 1 rows."].
Proof.
  intros e.
  exact (ask_database_prints e
           (lit "SELECT value FROM netflix_titles, json_each(directors)")
           {| ResponsesAI.stdout := []; ResponsesAI.open_connections := 0 |}
           eq_refl).
Defined.

(** X22: the two scripts agree on small results.  For a text that the
    dashboard's rewriter accepts and whose result has at most [MAX_ROWS]
    rows, [ask_database] of the batch script, given the trimmed text,
    returns the rows that [execute_query] returns. *)
Theorem scripts_agree_on_small_results
    (e : env) (sql safe : str) (cur : cursor) (w : world)
    (sw : ResponsesAI.script_world) :
  _normalise_query sql = Ok safe ->
  connect e = Ok tt ->
  database e safe = Ok cur ->
  failure cur = None ->
  length (pending cur) <= MAX_ROWS ->
  fst (ResponsesAI.ask_database e (strip sql) sw)
  = ResponsesAI.Returned (pending cur)
  /\ exists cols, fst (execute_query e sql w) = Ok (cols, pending cur).
Proof.
  intros Hsafe Hconn Hdb Hfail Hlen. split.
  - destruct (normalise_ok_inv Hsafe) as (_ & Hout & _).
    unfold ResponsesAI.ask_database. rewrite Hconn.
    fold (ResponsesAI.safe_query_of (strip sql)) in Hout.
    rewrite <- Hout, Hdb. unfold ResponsesAI.fetchall. rewrite Hfail.
    reflexivity.
  - pose proof (execute_query_small e sql safe cur w Hsafe Hconn Hdb Hlen) as H.
    rewrite Hfail in H. rewrite H. eexists. reflexivity.
Qed.

Lemma scripts_agree_on_small_results_witness :
  let e := sample_env outage outage echo_db (Ok (JObject [])) in
  fst (ResponsesAI.ask_database e (strip (lit " SELECT 1 "))
         {| ResponsesAI.stdout := []; ResponsesAI.open_connections := 0 |})
  = ResponsesAI.Returned [[SqlText (lit "SELECT 1")]]
  /\ exists cols,
       fst (execute_query e (lit " SELECT 1 ") initial_world)
       = Ok (cols, [[SqlText (lit "SELECT 1")]]).
Proof.
  intros e.
  apply (scripts_agree_on_small_results e (lit " SELECT 1 ") (lit "SELECT 1")
           {| description := Some [lit "sql"];
              pending := [[SqlText (lit "SELECT 1")]];
              failure := None |} initial_world
           {| ResponsesAI.stdout := []; ResponsesAI.open_connections := 0 |}).
  - vm_compute. reflexivity.
  - reflexivity.
  - reflexivity.
  - reflexivity.
  - apply Nat.leb_le. vm_compute. reflexivity.
Defined.
